(** * Membership activation workflow of the CSI NMAMIT web application

    A shallow embedding of the payment backend ([backend/index.js] and its
    second copy with the duplicate-purchase guard), of the client-side
    payment service and recruitment hook (rate limiting), and of the
    validation and sanitisation utilities, followed by the properties
    established about them.

    Conventions.
    - JavaScript strings are modelled as [string]; the code only inspects
      ASCII characters, which UTF-8 keeps as single bytes.
    - Times are milliseconds since the epoch, in [Z], as [Date.now()]
      returns them.
    - [null] and [undefined] are both [None] wherever the code only tests
      a field for truthiness, compares it with [===] to a string or reads
      it through [?.]; the fields of the [/verify-payment] body, which the
      code concatenates into the signed string, keep the two apart
      ([BodyField]).
    - External collaborators (the HMAC primitive of [crypto], [JSON.stringify],
      the gateway's [orders.create]) are section variables; the document
      store is a concrete finite map with an explicit fault record that
      says which of its calls throws. *)

From Stdlib Require Import ZArith Lia Ascii String List QArith.
From stdpp Require Import base gmap strings list pretty.

Open Scope string_scope.
Open Scope Z_scope.

(** ** JavaScript preliminaries *)

(** Result of a call that may throw. *)
Inductive outcome (A : Type) : Type :=
| Return (a : A)
| Throw (e : string).
Arguments Return {A} a.
Arguments Throw {A} e.

(** Truthiness of a string-or-undefined value: [undefined] and the empty
    string are falsy. *)
Definition truthy (v : option string) : bool :=
  match v with
  | Some s => negb (String.eqb s "")
  | None => false
  end.

(** A field of a JSON request body that holds a string when it is given:
    absent from the body ([undefined] after destructuring), [null], or a
    string. *)
Inductive BodyField : Type :=
| FieldUndefined
| FieldNull
| FieldString (s : string).

(** [ToString] of such a field, as [+] applies it next to a string. *)
Definition field_to_string (v : BodyField) : string :=
  match v with
  | FieldUndefined => "undefined"
  | FieldNull => "null"
  | FieldString s => s
  end.

(** [a === b] for such a field [a] and a string [b]. *)
Definition field_strict_eq (a : BodyField) (b : string) : bool :=
  match a with
  | FieldString s => String.eqb s b
  | _ => false
  end.

(** [a === b] where [a] may be undefined and [b] is a string. *)
Definition strict_eq (a : option string) (b : string) : bool :=
  match a with
  | Some s => String.eqb s b
  | None => false
  end.

(** The values a form field or sanitiser argument can take. *)
Inductive JsValue : Type :=
| JsUndefined
| JsNull
| JsBool (b : bool)
| JsNumber (z : Z)
| JsString (s : string).

(** The double-quote character, code 34. *)
Definition double_quote : ascii :=
  Ascii false true false false false true false false.

(** ** String utilities: [String.prototype.replace] with a one-character
    global pattern, and membership of a character *)

Fixpoint has_char (c : ascii) (s : string) : bool :=
  match s with
  | EmptyString => false
  | String a s' => Ascii.eqb a c || has_char c s'
  end.

(** [s.replace(/c/g, rep)]: every occurrence of [c] becomes [rep]; the
    replacement strings of the source contain no [$], so they are literal. *)
Fixpoint replace_all (c : ascii) (rep : string) (s : string) : string :=
  match s with
  | EmptyString => EmptyString
  | String a s' =>
      if Ascii.eqb a c then rep +:+ replace_all c rep s'
      else String a (replace_all c rep s')
  end.

(** ** src/utils/securityUtils.js *)

Module SecurityUtils.

(** The seven-step chain applied to a string input. *)
Definition sanitizeString (input : string) : string :=
  replace_all "=" "&#x3D;"
    (replace_all "`" "&#96;"
      (replace_all "/" "&#x2F;"
        (replace_all "'" "&#x27;"
          (replace_all double_quote "&quot;"
            (replace_all ">" "&gt;"
              (replace_all "<" "&lt;" input)))))).

(** [sanitizeInput]: non-strings are returned as they are. *)
Definition sanitizeInput (input : JsValue) : JsValue :=
  match input with
  | JsString s => JsString (sanitizeString s)
  | other => other
  end.

End SecurityUtils.

(** ** Anchored regular expressions of the shape [^ a1{n1} a2{n2} ... $]

    Both phone patterns are of this shape.  Without the [m] flag [$] only
    matches at the very end of the input, and [\d] is [0-9]. *)

Inductive atom : Type :=
| Range (lo hi : ascii)     (* [lo-hi] *)
| Digit.                    (* \d *)

Definition atom_matches (a : atom) (c : ascii) : bool :=
  match a with
  | Range lo hi => (nat_of_ascii lo <=? nat_of_ascii c)%nat && (nat_of_ascii c <=? nat_of_ascii hi)%nat
  | Digit => (48 <=? nat_of_ascii c)%nat && (nat_of_ascii c <=? 57)%nat
  end.

(** [a{n}] at the head of [s]; returns the rest of the input. *)
Fixpoint match_repeat (a : atom) (n : nat) (s : string) : option string :=
  match n with
  | O => Some s
  | S n' =>
      match s with
      | String c s' => if atom_matches a c then match_repeat a n' s' else None
      | EmptyString => None
      end
  end.

(** [/^...$/.test(s)] for a sequence of counted atoms. *)
Fixpoint regex_test (r : list (atom * nat)) (s : string) : bool :=
  match r with
  | [] => String.eqb s ""
  | (a, n) :: r' =>
      match match_repeat a n s with
      | Some rest => regex_test r' rest
      | None => false
      end
  end.

(** [isValidPhone] of securityUtils.js: [/^[6-9]\d{9}$/]. *)
Definition isValidPhone (phone : string) : bool :=
  regex_test [(Range "6" "9", 1%nat); (Digit, 9%nat)] phone.

(** ** The second validation module (unnamed part 3) *)

Module Validation.

(** [validatePhone]: [/^\d{10}$/]. *)
Definition validatePhone (phone : string) : bool :=
  regex_test [(Digit, 10%nat)] phone.

(** [sanitizeInput]: the five-step chain; documented for string input. *)
Definition sanitizeInput (input : string) : string :=
  replace_all "/" "&#x2F;"
    (replace_all "'" "&#x27;"
      (replace_all double_quote "&quot;"
        (replace_all ">" "&gt;"
          (replace_all "<" "&lt;" input)))).

End Validation.

(** ** services/paymentService.js: the client-side payment service *)

(** The registration form as the payment flow passes it around. *)
Record FormData : Type := {
  fd_name : option string;
  fd_email : option string;
  fd_phone : option string;
  fd_branch : option string;
  fd_year : option string;
  fd_usn : option string;
  fd_whyJoin : option string
}.

(** [sanitizeFormData] of securityUtils.js: string values are sanitised,
    other values are copied. *)
Definition sanitizeFormData (f : FormData) : FormData :=
  {| fd_name := SecurityUtils.sanitizeString <$> fd_name f;
     fd_email := SecurityUtils.sanitizeString <$> fd_email f;
     fd_phone := SecurityUtils.sanitizeString <$> fd_phone f;
     fd_branch := SecurityUtils.sanitizeString <$> fd_branch f;
     fd_year := SecurityUtils.sanitizeString <$> fd_year f;
     fd_usn := SecurityUtils.sanitizeString <$> fd_usn f;
     fd_whyJoin := SecurityUtils.sanitizeString <$> fd_whyJoin f |}.

(** An entry of [membershipPlans], the table the service imports from
    data/membershipData; it is a parameter of [createOrder] below. *)
Record ClientPlan : Type := {
  cp_id : string;
  cp_price : Z;
  cp_name : string;
  cp_duration : string
}.

(** The body of the client's POST to [/create-order]. *)
Record CreateOrderRequest : Type := {
  cr_userId : string;
  cr_planId : string;
  cr_amount : Z;
  cr_formData : FormData;
  cr_transactionId : string
}.

(** What [createOrder] resolves to. *)
Record ClientOrder : Type := {
  co_orderId : string;
  co_amount : Z;
  co_currency : string;
  co_transactionId : option string
}.

(** One call of [createOrder]: the clock value [Date.now()] returns inside
    [checkRateLimit], the arguments, and the transaction id that
    [generateTransactionId] draws for it. *)
Record Attempt : Type := {
  at_now : Z;
  at_userId : string;
  at_planId : string;
  at_formData : FormData;
  at_transactionId : string
}.

Module PaymentService.

(** [checkRateLimit(userId)]: the map is only written when the attempt is
    allowed. *)
Definition checkRateLimit (now : Z) (userId : string)
    (rateLimitMap : gmap string (list Z))
  : outcome bool * gmap string (list Z) :=
  let userAttempts := default [] (rateLimitMap !! userId) in
  let recentAttempts :=
    filter (fun timestamp => now - timestamp < 300000) userAttempts in
  if (3 <=? List.length recentAttempts)%nat then
    (Throw "Too many payment attempts. Please try again later.", rateLimitMap)
  else
    (Return true, <[userId := (recentAttempts ++ [now])%list]> rateLimitMap).

Section CreateOrder.

(** The plan table, the form validation (regular expressions over the
    form fields) and the network. *)
Variable membershipPlans : list ClientPlan.
Variable validatePaymentData : FormData -> string -> outcome bool.
Variable apiBaseUrl : string.
Variable fetch : CreateOrderRequest -> outcome (bool * ClientOrder).

(** [createOrder(userId, planId, formData)].  The result carries the
    requests sent to [/create-order] during the call. *)
Definition createOrder (a : Attempt) (rateLimitMap : gmap string (list Z))
  : (outcome ClientOrder * list CreateOrderRequest) * gmap string (list Z) :=
  match checkRateLimit (at_now a) (at_userId a) rateLimitMap with
  | (Throw e, m) => ((Throw e, []), m)
  | (Return _, m) =>
      match find (fun p => String.eqb (cp_id p) (at_planId a)) membershipPlans with
      | None => ((Throw "Invalid plan selected", []), m)
      | Some plan =>
          match validatePaymentData (at_formData a) (at_planId a) with
          | Throw e => ((Throw e, []), m)
          | Return _ =>
              let sanitizedData := sanitizeFormData (at_formData a) in
              let transactionId := at_transactionId a in
              if negb (String.eqb apiBaseUrl "") then
                let request :=
                  {| cr_userId := at_userId a;
                     cr_planId := at_planId a;
                     cr_amount := cp_price plan;
                     cr_formData := sanitizedData;
                     cr_transactionId := transactionId |} in
                match fetch request with
                | Throw e => ((Throw e, [request]), m)
                | Return (ok, json) =>
                    if ok then ((Return json, [request]), m)
                    else ((Throw "Failed to create payment order", [request]), m)
                end
              else
                ((Return {| co_orderId := "order_" +:+ transactionId;
                            co_amount := cp_price plan * 100;
                            co_currency := "INR";
                            co_transactionId := Some transactionId |}, []), m)
          end
      end
  end.

(** A session: successive calls on the service singleton, whose map
    starts empty.  The log pairs each attempt with what it produced. *)
Fixpoint session (attempts : list Attempt) (rateLimitMap : gmap string (list Z))
  : list (Attempt * (outcome ClientOrder * list CreateOrderRequest))
    * gmap string (list Z) :=
  match attempts with
  | [] => ([], rateLimitMap)
  | a :: rest =>
      let '(r, m) := createOrder a rateLimitMap in
      let '(log, m') := session rest m in
      ((a, r) :: log, m')
  end.

End CreateOrder.

(** The attempts of a session that the limiter allowed, in order. *)
Fixpoint allowed (attempts : list Attempt) (rateLimitMap : gmap string (list Z))
  : list Attempt :=
  match attempts with
  | [] => []
  | a :: rest =>
      match checkRateLimit (at_now a) (at_userId a) rateLimitMap with
      | (Return _, m) => a :: allowed rest m
      | (Throw _, m) => allowed rest m
      end
  end.

End PaymentService.

(** The clock never runs backwards over a list of attempts. *)
Fixpoint clock_monotone (attempts : list Attempt) : Prop :=
  match attempts with
  | [] => True
  | a :: rest => Forall (fun b => at_now a <= at_now b) rest /\ clock_monotone rest
  end.

(** Attempts of user [u] whose time lies in the window [w, w + 300000). *)
Definition in_window (u : string) (w : Z) (a : Attempt) : Prop :=
  at_userId a = u /\ w <= at_now a < w + 300000.

#[global] Instance in_window_dec u w a : Decision (in_window u w a).
Proof. unfold in_window. apply _. Defined.

(** Log entries of a session during which a request was sent. *)
Definition sent_request {R : Type}
    (e : Attempt * (R * list CreateOrderRequest)) : Prop :=
  e.2.2 <> [].

#[global] Instance sent_request_dec {R} (e : Attempt * (R * list CreateOrderRequest)) :
  Decision (sent_request e).
Proof. unfold sent_request. destruct (e.2.2); [right|left]; congruence. Defined.

(** The attempts of [u] in a history that are still recent at time [t]. *)
Definition recent_of (u : string) (t : Z) (h : list Attempt) : list Attempt :=
  filter (fun a => at_userId a = u /\ t - at_now a < 300000) h.

(** What the limiter's map must remember about the allowed history [h]
    once the clock has reached [t0]: for every later time, filtering the
    stored timestamps gives the recent allowed attempts. *)
Definition limiter_inv (h : list Attempt) (m : gmap string (list Z)) (t0 : Z) : Prop :=
  Forall (fun a => at_now a <= t0) h
  /\ forall u t, t0 <= t ->
       filter (fun ts => t - ts < 300000) (default [] (m !! u))
       = at_now <$> recent_of u t h.

Definition window_bound (h : list Attempt) : Prop :=
  forall u w, (List.length (filter (in_window u w) h) <= 3)%nat.

(** ** hooks/useSecureRecruit.js: the recruitment hook's own limiter *)

Module SecureRecruit.

(** The two [useRef] cells. *)
Record Refs : Type := {
  paymentAttempts : Z;
  lastPaymentTime : option Z
}.

Definition initial : Refs :=
  {| paymentAttempts := 0; lastPaymentTime := None |}.

(** [Math.ceil(x / 60000)] for an integer [x]. *)
Definition ceil_minutes (x : Z) : Z := - ((- x) / 60000).

(** [checkPaymentRateLimit()]: resets the counter once more than five
    minutes have passed since the last counted attempt, then refuses with a
    toast when three attempts are counted. *)
Definition checkPaymentRateLimit (now : Z) (r : Refs)
  : (bool * option string) * Refs :=
  let r1 :=
    match lastPaymentTime r with
    | Some last =>
        if negb (last =? 0) && (300000 <? now - last)
        then {| paymentAttempts := 0; lastPaymentTime := lastPaymentTime r |}
        else r
    | None => r
    end in
  if 3 <=? paymentAttempts r1 then
    let timeLeft :=
      ceil_minutes (300000 - (now - default 0 (lastPaymentTime r1))) in
    ((false,
      Some ("Too many payment attempts. Please wait " +:+ pretty timeLeft
            +:+ " minutes.")), r1)
  else ((true, None), r1).

(** What [handlePayment] does from its rate-limit step on (the sign-in,
    active-membership and profile checks before it return without
    touching the refs): either it stops with the toast, or it counts the
    attempt, stamps the time and goes on to the payment service. *)
Inductive step_result : Type :=
| Refused (toast : option string)
| HandedOver.

Definition handlePayment (now_check now_stamp : Z) (r : Refs)
  : step_result * Refs :=
  match checkPaymentRateLimit now_check r with
  | ((false, toast), r1) => (Refused toast, r1)
  | ((true, _), r1) =>
      (HandedOver,
       {| paymentAttempts := paymentAttempts r1 + 1;
          lastPaymentTime := Some now_stamp |})
  end.

End SecureRecruit.

(** A run of the hook: successive calls of [handlePayment] without a
    successful payment in between (the success callback sets the counter
    back to 0).  A call is given by the two clock values it reads, in the
    check and in the stamp; the result lists the stamps of the calls that
    went on to the payment service. *)
Fixpoint handed_over (calls : list (Z * Z)) (r : SecureRecruit.Refs) : list Z :=
  match calls with
  | [] => []
  | (now_check, now_stamp) :: rest =>
      match SecureRecruit.handlePayment now_check now_stamp r with
      | (SecureRecruit.HandedOver, r') => now_stamp :: handed_over rest r'
      | (SecureRecruit.Refused _, r') => handed_over rest r'
      end
  end.

(** The clock never runs backwards over the reads of a run. *)
Fixpoint hook_clock_monotone (calls : list (Z * Z)) : Prop :=
  match calls with
  | [] => True
  | (now_check, now_stamp) :: rest =>
      now_check <= now_stamp
      /\ Forall (fun c => now_stamp <= c.1) rest
      /\ hook_clock_monotone rest
  end.

(** Stamps inside the window [w, w + 300000). *)
Definition in_span (w : Z) (t : Z) : Prop := w <= t < w + 300000.

#[global] Instance in_span_dec w t : Decision (in_span w t).
Proof. unfold in_span. apply _. Defined.

(** What the two refs say about the stamps [h] handed over so far, once
    the clock has reached [t0]: the counter is the size of a final segment
    of [h], every earlier stamp is more than 300000 ms older than a time
    the clock has passed, and the last-payment time bounds all stamps. *)
Definition hook_inv (h : list Z) (r : SecureRecruit.Refs) (t0 : Z) : Prop :=
  exists old burst b,
    h = (old ++ burst)%list
    /\ SecureRecruit.paymentAttempts r = Z.of_nat (List.length burst)
    /\ b <= t0
    /\ Forall (fun t => t + 300000 < b) old
    /\ match SecureRecruit.lastPaymentTime r with
       | Some l => Forall (fun t => t <= l) h /\ l <= t0
       | None => h = []
       end.

Definition span_bound (h : list Z) : Prop :=
  forall w, (List.length (filter (in_span w) h) <= 3)%nat.

(** ** [Date] arithmetic (ECMA-262, with the server's local time taken to
    be UTC) *)

Module JsDate.

Definition msPerDay : Z := 86400000.

Definition Day (t : Z) : Z := t / msPerDay.
Definition TimeWithinDay (t : Z) : Z := t mod msPerDay.

(** Day number of date [d] of month [m] (0 = January) of [year] in the
    proleptic Gregorian calendar, counted from 1 January 1970 as day 0. *)
Definition days_from_civil (year m d : Z) : Z :=
  let y := if m <? 2 then year - 1 else year in
  let era := y / 400 in
  let yoe := y - era * 400 in
  let mp := if m <? 2 then m + 10 else m - 2 in
  let doy := (153 * mp + 2) / 5 + d - 1 in
  let doe := yoe * 365 + yoe / 4 - yoe / 100 + doy in
  era * 146097 + doe - 719468.

(** Year, month (0 = January) and date (1..31) of day number [z]. *)
Definition civil_from_days (z : Z) : Z * Z * Z :=
  let z := z + 719468 in
  let era := z / 146097 in
  let doe := z - era * 146097 in
  let yoe := (doe - doe / 1460 + doe / 36524 - doe / 146096) / 365 in
  let doy := doe - (365 * yoe + yoe / 4 - yoe / 100) in
  let mp := (5 * doy + 2) / 153 in
  let d := doy - (153 * mp + 2) / 5 + 1 in
  let m := if mp <? 10 then mp + 2 else mp - 10 in
  let y := yoe + era * 400 in
  (if m <? 2 then y + 1 else y, m, d).

Definition YearFromTime (t : Z) : Z := (civil_from_days (Day t)).1.1.
Definition MonthFromTime (t : Z) : Z := (civil_from_days (Day t)).1.2.
Definition DateFromTime (t : Z) : Z := (civil_from_days (Day t)).2.

(** [MakeDay(year, month, date)]: the day number of the first of the
    month, plus [date - 1]; months outside 0..11 carry into the year. *)
Definition MakeDay (year month date : Z) : Z :=
  days_from_civil (year + month / 12) (month mod 12) 1 + date - 1.

Definition MakeDate (day time : Z) : Z := day * msPerDay + time.

Definition getDate (t : Z) : Z := DateFromTime t.
Definition getFullYear (t : Z) : Z := YearFromTime t.

(** [d.setDate(date)] and [d.setFullYear(year)], as the new time value. *)
Definition setDate (t date : Z) : Z :=
  MakeDate (MakeDay (YearFromTime t) (MonthFromTime t) date) (TimeWithinDay t).

Definition setFullYear (t year : Z) : Z :=
  MakeDate (MakeDay year (MonthFromTime t) (DateFromTime t)) (TimeWithinDay t).

End JsDate.

(** ** The payment backend: shared data *)

(** A JavaScript number that is an integer or [NaN]. *)
Inductive JsNum : Type :=
| Num (z : Z)
| NaN.

Record Plan : Type := {
  price : Z;
  name : string;
  duration : string
}.

(** [MEMBERSHIP_PLANS]. *)
Definition MEMBERSHIP_PLANS : gmap string Plan :=
  <["one-year" := {| price := 358; name := "1-Year Executive Membership";
                     duration := "1 Year" |}]>
  (<["two-year" := {| price := 664; name := "2-Year Executive Membership";
                      duration := "2 Years" |}]>
  (<["three-year" := {| price := 919; name := "3-Year Executive Membership";
                        duration := "3 Years" |}]> ∅)).

(** [MEMBERSHIP_PLANS[planId]] is a property read on an object literal: a
    key that is not a plan still finds the members of [Object.prototype],
    which are truthy and have neither a numeric [price] nor (but for
    functions, whose [name] is their own) a plan name. *)
Inductive PlanLookup : Type :=
| OwnPlan (p : Plan)
| Inherited (fname : option string)
| Absent.

Definition Object_prototype : list (string * option string) :=
  [("constructor", Some "Object");
   ("__defineGetter__", Some "__defineGetter__");
   ("__defineSetter__", Some "__defineSetter__");
   ("hasOwnProperty", Some "hasOwnProperty");
   ("__lookupGetter__", Some "__lookupGetter__");
   ("__lookupSetter__", Some "__lookupSetter__");
   ("isPrototypeOf", Some "isPrototypeOf");
   ("propertyIsEnumerable", Some "propertyIsEnumerable");
   ("toString", Some "toString");
   ("valueOf", Some "valueOf");
   ("__proto__", None);
   ("toLocaleString", Some "toLocaleString")].

Definition plans_get (planId : string) : PlanLookup :=
  match MEMBERSHIP_PLANS !! planId with
  | Some p => OwnPlan p
  | None =>
      match find (fun kv => String.eqb kv.1 planId) Object_prototype with
      | Some kv => Inherited kv.2
      | None => Absent
      end
  end.

(** [plan.price * 100] and [plan.name] on what the lookup returned. *)
Definition plan_amount (l : PlanLookup) : JsNum :=
  match l with
  | OwnPlan p => Num (price p * 100)
  | _ => NaN
  end.

Definition plan_name (l : PlanLookup) : option string :=
  match l with
  | OwnPlan p => Some (name p)
  | Inherited fname => fname
  | Absent => None
  end.

(** [process.env]. *)
Record Env : Type := {
  RAZORPAY_KEY_ID : option string;
  RAZORPAY_KEY_SECRET : option string;
  WEBHOOK_SECRET : option string
}.

(** The JSON bodies the three endpoints answer with, and a response. *)
Inductive Json : Type :=
| json_error (error : string)
| json_order (orderId : string) (amount : Z) (currency : string) (keyId : option string)
| json_verified (verified : bool) (error : option string)
| json_status (status : string).

Record Response : Type := {
  res_status : Z;
  res_json : Json
}.

(** [res.json(b)] answers 200; [res.status(c).json(b)] answers [c]. *)
Definition res_ok (b : Json) : Response := {| res_status := 200; res_json := b |}.
Definition res_with (c : Z) (b : Json) : Response := {| res_status := c; res_json := b |}.

(** Body of [POST /create-order].  The client sends [amount], [formData]
    and [transactionId] next to the two fields the server reads. *)
Record CreateOrderBody : Type := {
  b_planId : option string;
  b_userId : option string;
  b_amount : option Z;
  b_formData : option FormData;
  b_transactionId : option string
}.

(** Argument of [razorpay.orders.create] and the order it returns. *)
Record OrderNotes : Type := {
  on_userId : option string;
  on_planId : string;
  on_planName : option string
}.

Record OrderOptions : Type := {
  oo_amount : JsNum;
  oo_currency : string;
  oo_receipt : string;
  oo_notes : OrderNotes
}.

Record Order : Type := {
  order_id : string;
  order_amount : Z;
  order_currency : string
}.

(** Body of [POST /verify-payment]. *)
Record VerifyBody : Type := {
  razorpay_order_id : BodyField;
  razorpay_payment_id : BodyField;
  razorpay_signature : BodyField
}.

(** Body of [POST /webhook].  [wb_payment] is [payload.payment.entity];
    it is [None] when [payload.payment.entity.notes] cannot be reached
    because an object on that path is missing. *)
Record PaymentNotes : Type := {
  n_userId : option string;
  n_planId : option string
}.

Record PaymentEntity : Type := {
  pay_id : string;
  pay_order_id : string;
  pay_amount : Z;
  pay_currency : string;
  pay_notes : PaymentNotes
}.

Record WebhookBody : Type := {
  wb_event : option string;
  wb_payment : option PaymentEntity
}.

Record WebhookRequest : Type := {
  x_razorpay_signature : option string;
  wr_body : WebhookBody
}.

(** ** The document store *)

(** [admin.firestore.FieldValue.serverTimestamp()]: a time the store sets. *)
Inductive FieldValue : Type :=
| serverTimestamp.

(** The [membership] map of a user document.  Expiry fields hold a
    [Timestamp], given by its time in milliseconds. *)
Record Membership : Type := {
  m_status : option string;
  m_type : option string;
  m_planId : option string;
  m_startDate : option FieldValue;
  m_expiresAt : option Z;
  m_expiryDate : option Z
}.

Record UserDoc : Type := {
  u_membership : option Membership;
  u_role : option string;
  u_updatedAt : option FieldValue;
  u_profile : list (string * string)
}.

(** A row of the [payments] collection. *)
Record PaymentRow : Type := {
  p_userId : string;
  p_paymentId : string;
  p_orderId : string;
  p_amount : Q;
  p_currency : string;
  p_status : string;
  p_planId : string;
  p_createdAt : FieldValue
}.

Record Firestore : Type := {
  users : gmap string UserDoc;
  payments : list PaymentRow
}.

(** Which calls on the store throw during a request. *)
Record Faults : Type := {
  get_throws : bool;
  set_throws : bool;
  add_throws : bool
}.

Definition no_faults : Faults :=
  {| get_throws := false; set_throws := false; add_throws := false |}.

(** A field written by a merge replaces the stored one; a field the write
    does not mention keeps its stored value. *)
Definition written {A : Type} (new old : option A) : option A :=
  match new with
  | Some _ => new
  | None => old
  end.

Definition merge_membership (new : Membership) (old : option Membership) : Membership :=
  match old with
  | None => new
  | Some o =>
      {| m_status := written (m_status new) (m_status o);
         m_type := written (m_type new) (m_type o);
         m_planId := written (m_planId new) (m_planId o);
         m_startDate := written (m_startDate new) (m_startDate o);
         m_expiresAt := written (m_expiresAt new) (m_expiresAt o);
         m_expiryDate := written (m_expiryDate new) (m_expiryDate o) |}
  end.

Definition merge_doc (new : UserDoc) (old : option UserDoc) : UserDoc :=
  match old with
  | None => new
  | Some o =>
      {| u_membership :=
           match u_membership new with
           | Some m => Some (merge_membership m (u_membership o))
           | None => u_membership o
           end;
         u_role := written (u_role new) (u_role o);
         u_updatedAt := written (u_updatedAt new) (u_updatedAt o);
         u_profile := u_profile o |}
  end.

(** [db.collection('users').doc(userId)]: the id must be a non-empty
    string.  The library reads an id that contains [/] as a path and can
    refuse it as it refuses the empty one; the model does not follow it
    there and covers the ids that are single path segments, as the uids
    of the authentication service are. *)
Definition users_doc (userId : option string) : outcome string :=
  match userId with
  | Some id => if String.eqb id "" then Throw "invalid document path" else Return id
  | None => Throw "invalid document path"
  end.

(** [.get()]: the snapshot, [None] when the document does not exist. *)
Definition doc_get (flt : Faults) (fs : Firestore) (id : string)
  : outcome (option UserDoc) :=
  if get_throws flt then Throw "get failed" else Return (users fs !! id).

(** [.set(data, { merge: true })]. *)
Definition doc_set_merge (flt : Faults) (fs : Firestore) (id : string) (data : UserDoc)
  : outcome Firestore :=
  if set_throws flt then Throw "set failed"
  else Return {| users := <[id := merge_doc data (users fs !! id)]> (users fs);
                 payments := payments fs |}.

(** [db.collection('payments').add(row)]. *)
Definition payments_add (flt : Faults) (fs : Firestore) (row : PaymentRow)
  : outcome Firestore :=
  if add_throws flt then Throw "add failed"
  else Return {| users := users fs; payments := (payments fs ++ [row])%list |}.

(** [payment.amount / 100], as an exact rational in lowest terms. *)
Definition amount_in_rupees (paise : Z) : Q := Qred (paise # 100).

(** The row both webhook copies log. *)
Definition payment_row (userId planId : string) (payment : PaymentEntity) : PaymentRow :=
  {| p_userId := userId;
     p_paymentId := pay_id payment;
     p_orderId := pay_order_id payment;
     p_amount := amount_in_rupees (pay_amount payment);
     p_currency := pay_currency payment;
     p_status := "success";
     p_planId := planId;
     p_createdAt := serverTimestamp |}.

(** ** backend/index.js *)

Module Backend.

Section Handlers.

(** [crypto.createHmac('sha256', key).update(msg).digest('hex')],
    [JSON.stringify] on a webhook body, and the gateway. *)
Variable hmac_sha256_hex : string -> string -> string.
Variable JSON_stringify : WebhookBody -> string.
Variable razorpay_orders_create : OrderOptions -> outcome Order.

(** [POST /create-order].  The second component lists the calls made to
    the gateway. *)
Definition create_order (env : Env) (now : Z) (body : CreateOrderBody)
  : Response * list OrderOptions :=
  match b_planId body with
  | None => (res_with 400 (json_error "Invalid plan selected"), [])
  | Some planId =>
      if negb (truthy (Some planId)) then
        (res_with 400 (json_error "Invalid plan selected"), [])
      else
        match plans_get planId with
        | Absent => (res_with 400 (json_error "Invalid plan selected"), [])
        | plan =>
          let amount := plan_amount plan in
          let options :=
            {| oo_amount := amount;
               oo_currency := "INR";
               oo_receipt := "order_" +:+ pretty now;
               oo_notes := {| on_userId := b_userId body;
                              on_planId := planId;
                              on_planName := plan_name plan |} |} in
          match razorpay_orders_create options with
          | Return order =>
              (res_ok (json_order (order_id order) (order_amount order)
                                  (order_currency order) (RAZORPAY_KEY_ID env)),
               [options])
          | Throw _ =>
              (res_with 500 (json_error "Failed to create order"), [options])
          end
        end
  end.

(** [POST /verify-payment]. *)
Definition verify_payment (env : Env) (body : VerifyBody) : Response :=
  let sign := field_to_string (razorpay_order_id body) +:+ "|"
              +:+ field_to_string (razorpay_payment_id body) in
  match RAZORPAY_KEY_SECRET env with
  | None => res_with 500 (json_error "Verification failed")
  | Some secret =>
      let expectedSign := hmac_sha256_hex secret sign in
      if field_strict_eq (razorpay_signature body) expectedSign then
        res_ok (json_verified true None)
      else
        res_with 400 (json_verified false (Some "Invalid signature"))
  end.

(** The expiry: a number of days after now that depends on the plan. *)
Definition durationDays (planId : string) : Z :=
  if String.eqb planId "one-year" then 365
  else if String.eqb planId "two-year" then 730 else 1095.

Definition expiryDate (now : Z) (planId : string) : Z :=
  now + durationDays planId * 24 * 60 * 60 * 1000.

(** The data of the merge write. *)
Definition user_update (now : Z) (planId : string) : UserDoc :=
  {| u_membership :=
       Some {| m_status := Some "active";
               m_type := None;
               m_planId := Some planId;
               m_startDate := Some serverTimestamp;
               m_expiresAt := None;
               m_expiryDate := Some (expiryDate now planId) |};
     u_role := Some "EXECUTIVE MEMBER";
     u_updatedAt := Some serverTimestamp;
     u_profile := [] |}.

(** [POST /webhook].  The response is [None] when the handler throws
    outside its [try] block and so never answers. *)
Definition webhook (env : Env) (flt : Faults) (now : Z)
    (req : WebhookRequest) (fs : Firestore)
  : option Response * Firestore :=
  if negb (truthy (x_razorpay_signature req)) then
    (Some (res_with 400 (json_error "Missing signature")), fs)
  else
    match WEBHOOK_SECRET env with
    | None => (None, fs)
    | Some secret =>
        let digest := hmac_sha256_hex secret (JSON_stringify (wr_body req)) in
        if strict_eq (x_razorpay_signature req) digest then
          if strict_eq (wb_event (wr_body req)) "payment.captured" then
            match wb_payment (wr_body req) with
            | None => (None, fs)
            | Some payment =>
                match n_userId (pay_notes payment), n_planId (pay_notes payment) with
                | Some userId, Some planId =>
                    if truthy (Some userId) && truthy (Some planId) then
                      match doc_set_merge flt fs userId (user_update now planId) with
                      | Throw _ =>
                          (Some (res_with 500 (json_error "Database update failed")), fs)
                      | Return fs1 =>
                          match payments_add flt fs1 (payment_row userId planId payment) with
                          | Throw _ =>
                              (Some (res_with 500 (json_error "Database update failed")), fs1)
                          | Return fs2 => (Some (res_ok (json_status "ok")), fs2)
                          end
                      end
                    else (Some (res_ok (json_status "ok")), fs)
                | _, _ => (Some (res_ok (json_status "ok")), fs)
                end
            end
          else (Some (res_ok (json_status "ok")), fs)
        else
          (Some (res_with 400 (json_error "Invalid signature")), fs)
    end.

End Handlers.

End Backend.

(** ** The second copy of the backend (unnamed part 5): with the
    duplicate-purchase guard and the expiry counted in calendar years *)

Module BackendGuarded.

Section Handlers.

(** [crypto.createHmac('sha256', key).update(msg).digest('hex')],
    [JSON.stringify] on a webhook body, and the gateway. *)
Variable hmac_sha256_hex : string -> string -> string.
Variable JSON_stringify : WebhookBody -> string.
Variable razorpay_orders_create : OrderOptions -> outcome Order.

(** Check if user already has an active subscription. *)
Definition already_subscribed (today : Z) (userDoc : option UserDoc) : bool :=
  match userDoc with
  | Some userData =>
      match u_membership userData with
      | Some membership =>
          if strict_eq (m_status membership) "active" then
            match m_expiresAt membership with
            | Some expiry => today <? expiry
            | None => false
            end
          else false
      | None => false
      end
  | None => false
  end.

(** [POST /create-order].  [today] is the [new Date()] of the guard and
    [now] the [Date.now()] of the receipt.  The second component lists the
    calls made to the gateway. *)
Definition create_order (env : Env) (flt : Faults) (fs : Firestore) (today now : Z)
      (body : CreateOrderBody)
  : Response * list OrderOptions :=
  match b_planId body with
  | None => (res_with 400 (json_error "Invalid plan selected"), [])
  | Some planId =>
      if negb (truthy (Some planId)) then
        (res_with 400 (json_error "Invalid plan selected"), [])
      else
        match plans_get planId with
        | Absent => (res_with 400 (json_error "Invalid plan selected"), [])
        | plan =>
          match users_doc (b_userId body) with
          | Throw _ => (res_with 500 (json_error "Failed to create order"), [])
          | Return id =>
              match doc_get flt fs id with
              | Throw _ => (res_with 500 (json_error "Failed to create order"), [])
              | Return userDoc =>
                  if already_subscribed today userDoc then
                    (res_with 400 (json_error "User already has an active subscription"), [])
                  else
                    let amount := plan_amount plan in
                    let options :=
                      {| oo_amount := amount;
                         oo_currency := "INR";
                         oo_receipt := "order_" +:+ pretty now;
                         oo_notes := {| on_userId := b_userId body;
                                        on_planId := planId;
                                        on_planName := plan_name plan |} |} in
                    match razorpay_orders_create options with
                    | Return order =>
                        (res_ok (json_order (order_id order) (order_amount order)
                                            (order_currency order) (RAZORPAY_KEY_ID env)),
                         [options])
                    | Throw _ =>
                        (res_with 500 (json_error "Failed to create order"), [options])
                    end
              end
          end
        end
  end.

(** [POST /verify-payment]. *)
Definition verify_payment (env : Env) (body : VerifyBody) : Response :=
  let sign := field_to_string (razorpay_order_id body) +:+ "|"
              +:+ field_to_string (razorpay_payment_id body) in
  match RAZORPAY_KEY_SECRET env with
  | None => res_with 500 (json_error "Verification failed")
  | Some secret =>
      let expectedSign := hmac_sha256_hex secret sign in
      if field_strict_eq (razorpay_signature body) expectedSign then
        res_ok (json_verified true None)
      else
        res_with 400 (json_verified false (Some "Invalid signature"))
  end.

(** The expiry: yesterday plus the plan duration in years. *)
Definition durationYears (planId : string) : Z :=
  if String.eqb planId "one-year" then 1
  else if String.eqb planId "two-year" then 2 else 3.

(** [getDate], [setDate], [getFullYear] and [setFullYear] work in the
    server's local time, which [JsDate] takes to be UTC: in another zone
    the value differs by the zone's offsets at the two dates. *)
Definition expiresAt (now : Z) (planId : string) : Z :=
  let yesterday := JsDate.setDate now (JsDate.getDate now - 1) in
  let expiryDate :=
    JsDate.setFullYear yesterday (JsDate.getFullYear yesterday + durationYears planId) in
  expiryDate.

(** The data of the merge write. *)
Definition user_update (now : Z) (planId : string) : UserDoc :=
  {| u_membership :=
       Some {| m_status := Some "active";
               m_type := Some planId;
               m_planId := None;
               m_startDate := Some serverTimestamp;
               m_expiresAt := Some (expiresAt now planId);
               m_expiryDate := None |};
     u_role := Some "EXECUTIVE MEMBER";
     u_updatedAt := Some serverTimestamp;
     u_profile := [] |}.

(** [POST /webhook].  The response is [None] when the handler throws
    outside its [try] block and so never answers. *)
Definition webhook (env : Env) (flt : Faults) (now : Z)
    (req : WebhookRequest) (fs : Firestore)
  : option Response * Firestore :=
  if negb (truthy (x_razorpay_signature req)) then
    (Some (res_with 400 (json_error "Missing signature")), fs)
  else
    match WEBHOOK_SECRET env with
    | None => (None, fs)
    | Some secret =>
        let digest := hmac_sha256_hex secret (JSON_stringify (wr_body req)) in
        if strict_eq (x_razorpay_signature req) digest then
          if strict_eq (wb_event (wr_body req)) "payment.captured" then
            match wb_payment (wr_body req) with
            | None => (None, fs)
            | Some payment =>
                match n_userId (pay_notes payment), n_planId (pay_notes payment) with
                | Some userId, Some planId =>
                    if truthy (Some userId) && truthy (Some planId) then
                      match doc_set_merge flt fs userId (user_update now planId) with
                      | Throw _ =>
                          (Some (res_with 500 (json_error "Database update failed")), fs)
                      | Return fs1 =>
                          match payments_add flt fs1 (payment_row userId planId payment) with
                          | Throw _ =>
                              (Some (res_with 500 (json_error "Database update failed")), fs1)
                          | Return fs2 => (Some (res_ok (json_status "ok")), fs2)
                          end
                      end
                    else (Some (res_ok (json_status "ok")), fs)
                | _, _ => (Some (res_ok (json_status "ok")), fs)
                end
            end
          else (Some (res_ok (json_status "ok")), fs)
        else
          (Some (res_with 400 (json_error "Invalid signature")), fs)
    end.

End Handlers.

End BackendGuarded.

(** The same request body with another client-supplied [amount]. *)
Definition with_amount (a : option Z) (body : CreateOrderBody) : CreateOrderBody :=
  {| b_planId := b_planId body;
     b_userId := b_userId body;
     b_amount := a;
     b_formData := b_formData body;
     b_transactionId := b_transactionId body |}.



(** What is sent to the gateway for a plan of the catalogue. *)
Definition order_options (now : Z) (body : CreateOrderBody)
    (planId : string) (plan : Plan) : OrderOptions :=
  {| oo_amount := Num (price plan * 100);
     oo_currency := "INR";
     oo_receipt := "order_" +:+ pretty now;
     oo_notes := {| on_userId := b_userId body;
                    on_planId := planId;
                    on_planName := Some (name plan) |} |}.

(** A webhook request carries the signature the handler recomputes. *)
Definition correctly_signed (hmac_sha256_hex : string -> string -> string)
    (JSON_stringify : WebhookBody -> string) (env : Env) (req : WebhookRequest) : Prop :=
  exists secret signature,
    WEBHOOK_SECRET env = Some secret
    /\ x_razorpay_signature req = Some signature
    /\ signature <> ""
    /\ signature = hmac_sha256_hex secret (JSON_stringify (wr_body req)).

(** The store after the merge write of a webhook, given the data written. *)
Definition after_merge (fs : Firestore) (userId : string) (data : UserDoc) : Firestore :=
  {| users := <[userId := merge_doc data (users fs !! userId)]> (users fs);
     payments := payments fs |}.

(** The store after the ledger append. *)
Definition after_add (fs : Firestore) (row : PaymentRow) : Firestore :=
  {| users := users fs; payments := (payments fs ++ [row])%list |}.

(** The two ways a webhook request fails verification. *)
Definition signature_missing (req : WebhookRequest) : Prop :=
  truthy (x_razorpay_signature req) = false.

Definition signature_mismatch (hmac_sha256_hex : string -> string -> string)
    (JSON_stringify : WebhookBody -> string) (env : Env) (req : WebhookRequest) : Prop :=
  exists secret,
    WEBHOOK_SECRET env = Some secret
    /\ x_razorpay_signature req
       <> Some (hmac_sha256_hex secret (JSON_stringify (wr_body req))).

(** A verified request to which the activation does not apply: another
    event, or a captured payment whose notes lack a user id or a plan id. *)
Definition inapplicable (body : WebhookBody) : Prop :=
  wb_event body <> Some "payment.captured"
  \/ exists payment,
       wb_payment body = Some payment
       /\ (truthy (n_userId (pay_notes payment)) = false
           \/ truthy (n_planId (pay_notes payment)) = false).

(** A captured payment whose notes carry both identifiers. *)
Definition captured_for (body : WebhookBody) (payment : PaymentEntity)
    (userId planId : string) : Prop :=
  wb_event body = Some "payment.captured"
  /\ wb_payment body = Some payment
  /\ n_userId (pay_notes payment) = Some userId /\ userId <> ""
  /\ n_planId (pay_notes payment) = Some planId /\ planId <> "".

(** A captured payment of 35800 paise for user [u1] and the one-year plan,
    and the user document as sign-up creates it for an ordinary member. *)
Definition captured_u1_one_year : WebhookBody :=
  {| wb_event := Some "payment.captured";
     wb_payment :=
       Some {| pay_id := "pay_1";
               pay_order_id := "order_1";
               pay_amount := 35800;
               pay_currency := "INR";
               pay_notes := {| n_userId := Some "u1";
                               n_planId := Some "one-year" |} |} |}.

Definition signed_up_user : UserDoc :=
  {| u_membership :=
       Some {| m_status := Some "inactive";
               m_type := None;
               m_planId := None;
               m_startDate := None;
               m_expiresAt := None;
               m_expiryDate := None |};
     u_role := Some "User";
     u_updatedAt := None;
     u_profile := [("college", "NMAMIT")] |}.

Definition store_with_u1 : Firestore :=
  {| users := {["u1" := signed_up_user]}; payments := [] |}.

(** ** Sample collaborators and inputs

    The handlers are parametric in the HMAC, in [JSON.stringify] and in the
    gateway; these stand-ins let them run on concrete requests. *)

Definition sample_hmac (key msg : string) : string := key +:+ ":" +:+ msg.

Definition sample_stringify (body : WebhookBody) : string :=
  default "-" (wb_event body) +:+ "/"
  +:+ match wb_payment body with
      | Some payment => pay_id payment
      | None => "-"
      end.

Definition sample_gateway (options : OrderOptions) : outcome Order :=
  Return {| order_id := "order_1";
            order_amount := match oo_amount options with
                            | Num z => z
                            | NaN => 0
                            end;
            order_currency := oo_currency options |}.

Definition sample_env : Env :=
  {| RAZORPAY_KEY_ID := Some "rzp_test_key";
     RAZORPAY_KEY_SECRET := Some "key-secret";
     WEBHOOK_SECRET := Some "webhook-secret" |}.

(** A request for the one-year plan whose body also carries an amount of
    one rupee. *)
Definition sample_order_body : CreateOrderBody :=
  {| b_planId := Some "one-year";
     b_userId := Some "u1";
     b_amount := Some 1;
     b_formData := None;
     b_transactionId := None |}.

(** A member whose membership is active until time 2000. *)
Definition active_member : UserDoc :=
  {| u_membership :=
       Some {| m_status := Some "active";
               m_type := Some "one-year";
               m_planId := None;
               m_startDate := Some serverTimestamp;
               m_expiresAt := Some 2000;
               m_expiryDate := None |};
     u_role := Some "EXECUTIVE MEMBER";
     u_updatedAt := Some serverTimestamp;
     u_profile := [] |}.

Definition store_with_active_u1 : Firestore :=
  {| users := {["u1" := active_member]}; payments := [] |}.

(** Webhook requests: the captured payment signed with the sample HMAC,
    the same with a wrong signature, a signed refund event, and a signed
    captured payment whose notes are empty. *)
Definition signed_request (body : WebhookBody) : WebhookRequest :=
  {| x_razorpay_signature := Some (sample_hmac "webhook-secret" (sample_stringify body));
     wr_body := body |}.

Definition forged_request : WebhookRequest :=
  {| x_razorpay_signature := Some "0000";
     wr_body := captured_u1_one_year |}.

Definition refund_event : WebhookBody :=
  {| wb_event := Some "refund.created"; wb_payment := None |}.

Definition captured_without_notes : WebhookBody :=
  {| wb_event := Some "payment.captured";
     wb_payment :=
       Some {| pay_id := "pay_2";
               pay_order_id := "order_2";
               pay_amount := 35800;
               pay_currency := "INR";
               pay_notes := {| n_userId := None; n_planId := None |} |} |}.

(** The store refuses the ledger append only. *)
Definition ledger_fault : Faults :=
  {| get_throws := false; set_throws := false; add_throws := true |}.

(** Client-side session samples: an empty form, a plan table, a validation
    that accepts, a backend URL and a network that answers. *)
Definition empty_form : FormData :=
  {| fd_name := None; fd_email := None; fd_phone := None; fd_branch := None;
     fd_year := None; fd_usn := None; fd_whyJoin := None |}.

Definition sample_plans : list ClientPlan :=
  [{| cp_id := "one-year"; cp_price := 358;
      cp_name := "1-Year Executive Membership"; cp_duration := "1 Year" |}].

Definition sample_validate (f : FormData) (planId : string) : outcome bool :=
  Return true.

Definition sample_fetch (r : CreateOrderRequest) : outcome (bool * ClientOrder) :=
  Return (true, {| co_orderId := "order_1"; co_amount := cr_amount r * 100;
                   co_currency := "INR"; co_transactionId := None |}).

Definition attempt_at (t : Z) : Attempt :=
  {| at_now := t; at_userId := "u1"; at_planId := "one-year";
     at_formData := empty_form; at_transactionId := "tx" |}.

(** The characters the sanitisers escape. *)
Definition escaped7 : list ascii := ["<"; ">"; double_quote; "'"; "/"; "`"; "="]%char.
Definition escaped5 : list ascii := ["<"; ">"; double_quote; "'"; "/"]%char.

Definition free_of (cs : list ascii) (s : string) : Prop :=
  Forall (fun c => has_char c s = false) cs.

(** Every character of [s] satisfies [p]. *)
Fixpoint all_chars (p : ascii -> bool) (s : string) : bool :=
  match s with
  | EmptyString => true
  | String c s' => p c && all_chars p s'
  end.

Definition is_digit (c : ascii) : bool := atom_matches Digit c.

(** The set of strings the registrant phone rule describes: ten characters,
    all of them decimal digits, the first one among 6, 7, 8, 9. *)
Definition ten_digits_leading_6_to_9 (s : string) : Prop :=
  String.length s = 10%nat
  /\ all_chars is_digit s = true
  /\ exists c rest, s = String c rest
       /\ (c = "6" \/ c = "7" \/ c = "8" \/ c = "9")%char.

Definition ten_digits (s : string) : Prop :=
  String.length s = 10%nat /\ all_chars is_digit s = true.

(** ** Further definitions *)

(** [createRateLimiter(maxAttempts, windowMs)] of securityUtils.js: the
    function it returns, as a step on the map it closes over (empty when
    the limiter is created).  The defaults are 5 attempts per 60000 ms. *)
Module RateLimiter.

Section Limiter.

Variable maxAttempts windowMs : Z.

Definition limiter (now : Z) (key : string) (attempts : gmap string (list Z))
  : bool * gmap string (list Z) :=
  let userAttempts := default [] (attempts !! key) in
  let recentAttempts :=
    filter (fun timestamp => now - timestamp < windowMs) userAttempts in
  if maxAttempts <=? Z.of_nat (List.length recentAttempts) then
    (false, attempts)
  else
    (true, <[key := (recentAttempts ++ [now])%list]> attempts).

(** The calls of a run that the limiter answered [true], in order; a call
    is the clock value it reads and its key. *)
Fixpoint granted (calls : list (Z * string)) (attempts : gmap string (list Z))
  : list (Z * string) :=
  match calls with
  | [] => []
  | (now, key) :: rest =>
      match limiter now key attempts with
      | (true, m) => (now, key) :: granted rest m
      | (false, m) => granted rest m
      end
  end.

End Limiter.

End RateLimiter.

(** The clock never runs backwards over the calls of a limiter. *)
Fixpoint calls_monotone (calls : list (Z * string)) : Prop :=
  match calls with
  | [] => True
  | c :: rest => Forall (fun d => c.1 <= d.1) rest /\ calls_monotone rest
  end.

(** Calls with key [k] whose time lies in [w, w + windowMs). *)
Definition in_key_window (windowMs : Z) (k : string) (w : Z) (c : Z * string) : Prop :=
  c.2 = k /\ w <= c.1 < w + windowMs.

#[global] Instance in_key_window_dec windowMs k w c :
  Decision (in_key_window windowMs k w c).
Proof. unfold in_key_window. apply _. Defined.

(** Granted calls of key [k] that are still recent at time [t]. *)
Definition recent_calls (windowMs : Z) (k : string) (t : Z) (h : list (Z * string))
  : list (Z * string) :=
  filter (fun c => c.2 = k /\ t - c.1 < windowMs) h.

Definition granted_inv (windowMs : Z) (h : list (Z * string))
    (m : gmap string (list Z)) (t0 : Z) : Prop :=
  Forall (fun c => c.1 <= t0) h
  /\ forall k t, t0 <= t ->
       filter (fun ts => t - ts < windowMs) (default [] (m !! k))
       = fst <$> recent_calls windowMs k t h.

Definition granted_bound (maxAttempts windowMs : Z) (h : list (Z * string)) : Prop :=
  forall k w,
    Z.of_nat (List.length (filter (in_key_window windowMs k w) h)) <= Z.max 0 maxAttempts.

(** The attempts of one user. *)
Definition by_user (u : string) (a : Attempt) : Prop := at_userId a = u.

#[global] Instance by_user_dec u a : Decision (by_user u a).
Proof. unfold by_user. apply _. Defined.

(** [s.replace(/\D/g, '')]: the decimal digits of [s], in order. *)
Fixpoint strip_non_digits (s : string) : string :=
  match s with
  | EmptyString => EmptyString
  | String c s' =>
      if is_digit c then String c (strip_non_digits s') else strip_non_digits s'
  end.

(** [isValidPhone] of adminEventUtils.js, which is also the phone rule of
    [validateProfileData] in profileService.js:
    [/^[0-9]{10}$/.test(phone.replace(/\D/g, ''))]. *)
Module AdminEvents.

Definition isValidPhone (phone : string) : bool :=
  regex_test [(Range "0" "9", 10%nat)] (strip_non_digits phone).

End AdminEvents.

(** Number of decimal digits in a string. *)
Fixpoint count_digits (s : string) : nat :=
  match s with
  | EmptyString => O
  | String c s' => if is_digit c then S (count_digits s') else count_digits s'
  end.

(** [s.substring(n)] and [s.substring(0, n)] for [n >= 0], and
    [s.startsWith(p)]. *)
Fixpoint string_drop (n : nat) (s : string) : string :=
  match n, s with
  | O, _ => s
  | S n', String _ s' => string_drop n' s'
  | S _, EmptyString => EmptyString
  end.

Fixpoint string_take (n : nat) (s : string) : string :=
  match n, s with
  | O, _ => EmptyString
  | S n', String c s' => String c (string_take n' s')
  | S _, EmptyString => EmptyString
  end.

Fixpoint starts_with (p s : string) : bool :=
  match p, s with
  | EmptyString, _ => true
  | String a p', String b s' => Ascii.eqb a b && starts_with p' s'
  | String _ _, EmptyString => false
  end.

(** [sanitizePhone] of securityUtils.js, on the phone string of a form
    ([None] for a missing value; the empty string is falsy as well). *)
Definition sanitizePhone (phone : option string) : string :=
  match phone with
  | None => ""
  | Some p =>
      if String.eqb p "" then ""
      else
        let cleaned := strip_non_digits p in
        let cleaned :=
          if starts_with "0" cleaned then string_drop 1 cleaned else cleaned in
        let cleaned :=
          if starts_with "91" cleaned && (10 <? String.length cleaned)%nat
          then string_drop 2 cleaned else cleaned in
        string_take 10 cleaned
  end.

(** Upper case of an ASCII letter, as the [i] flag compares characters. *)
Definition to_upper (c : ascii) : ascii :=
  if (97 <=? nat_of_ascii c)%nat && (nat_of_ascii c <=? 122)%nat
  then ascii_of_nat (nat_of_ascii c - 32) else c.

(** [s] starts with the literal [p], letters compared without case. *)
Fixpoint starts_with_ci (p s : string) : bool :=
  match p, s with
  | EmptyString, _ => true
  | String a p', String b s' =>
      Ascii.eqb (to_upper a) (to_upper b) && starts_with_ci p' s'
  | String _ _, EmptyString => false
  end.

(** [isValidUSN] of securityUtils.js: [/^(NNM|NU)/i]. *)
Definition isValidUSN (usn : string) : bool :=
  starts_with_ci "NNM" usn || starts_with_ci "NU" usn.

(** Anchored sequences of counted character classes, a class being any
    test on a character. *)
Fixpoint class_repeat (p : ascii -> bool) (n : nat) (s : string) : option string :=
  match n with
  | O => Some s
  | S n' =>
      match s with
      | String c s' => if p c then class_repeat p n' s' else None
      | EmptyString => None
      end
  end.

Fixpoint classes_test (r : list ((ascii -> bool) * nat)) (s : string) : bool :=
  match r with
  | [] => String.eqb s ""
  | (p, n) :: r' =>
      match class_repeat p n s with
      | Some rest => classes_test r' rest
      | None => false
      end
  end.

(** [[A-Z]] under the [i] flag, and [[1-4]]. *)
Definition is_letter (c : ascii) : bool :=
  (65 <=? nat_of_ascii (to_upper c))%nat && (nat_of_ascii (to_upper c) <=? 90)%nat.

Definition is_1_to_4 (c : ascii) : bool :=
  (49 <=? nat_of_ascii c)%nat && (nat_of_ascii c <=? 52)%nat.

(** [validateUSN] of the validation module:
    [/^[1-4][A-Z]{2}\d{2}[A-Z]{2}\d{3}$/i]. *)
Definition validateUSN (usn : string) : bool :=
  classes_test [(is_1_to_4, 1%nat); (is_letter, 2%nat); (is_digit, 2%nat);
                (is_letter, 2%nat); (is_digit, 3%nat)] usn.

(** The page buttons of the admin tables ([renderButtons] inside
    [Pagination]): the page numbers shown, five at most. *)
Definition renderButtons (currentPage totalPages : Z) : list Z :=
  let maxButtons := 5 in
  let startPage := Z.max 1 (currentPage - maxButtons / 2) in
  let endPage := Z.min totalPages (startPage + maxButtons - 1) in
  let startPage :=
    if endPage - startPage <? maxButtons - 1
    then Z.max 1 (endPage - maxButtons + 1) else startPage in
  seqZ startPage (endPage - startPage + 1).

(** The members shown on a page and the number of pages
    ([paginatedMembers] and [totalPages] of the members table), for a page
    number from 1 on. *)
Definition MEMBERS_PER_PAGE : nat := 20.

Definition paginatedMembers {A : Type} (filteredMembers : list A) (currentPage : nat)
  : list A :=
  let start := ((currentPage - 1) * MEMBERS_PER_PAGE)%nat in
  take MEMBERS_PER_PAGE (drop start filteredMembers).

Definition totalPages {A : Type} (filteredMembers : list A) : nat :=
  ((List.length filteredMembers + MEMBERS_PER_PAGE - 1) / MEMBERS_PER_PAGE)%nat.

(** A captured payment whose notes name a plan the catalogue does not
    list, a request for a key that only [Object.prototype] has, and the
    refs of the hook after three counted attempts, the last at time 1000. *)
Definition captured_u1_lifetime : WebhookBody :=
  {| wb_event := Some "payment.captured";
     wb_payment :=
       Some {| pay_id := "pay_3";
               pay_order_id := "order_3";
               pay_amount := 100;
               pay_currency := "INR";
               pay_notes := {| n_userId := Some "u1";
                               n_planId := Some "lifetime" |} |} |}.

Definition constructor_order_body : CreateOrderBody :=
  {| b_planId := Some "constructor";
     b_userId := Some "u1";
     b_amount := None;
     b_formData := None;
     b_transactionId := None |}.

Definition three_counted : SecureRecruit.Refs :=
  {| SecureRecruit.paymentAttempts := 3;
     SecureRecruit.lastPaymentTime := Some 1000 |}.

(** What a request may change in the store: one more ledger row at most,
    and the user document named by the payment notes. *)
Definition within_frame (req : WebhookRequest) (fs fs' : Firestore) : Prop :=
  (exists rows, payments fs' = (payments fs ++ rows)%list /\ (List.length rows <= 1)%nat)
  /\ forall id, users fs' !! id <> users fs !! id ->
       exists payment, wb_payment (wr_body req) = Some payment
                       /\ n_userId (pay_notes payment) = Some id.

(* ===== end of definitions ===== *)

(** * Properties *)

(** ** Sanitiser *)

Lemma has_char_app c s1 s2 :
  has_char c (s1 +:+ s2) = has_char c s1 || has_char c s2.
Proof.
  induction s1 as [|a s1 IH]; simpl; [reflexivity|].
  rewrite IH. apply orb_assoc.
Qed.

(** A pass leaves a string without the pattern character untouched. *)
Lemma replace_all_absent c rep s :
  has_char c s = false -> replace_all c rep s = s.
Proof.
  induction s as [|a s IH]; simpl; [reflexivity|].
  intros H. apply orb_false_iff in H as [Ha Hs].
  rewrite Ha. f_equal. auto.
Qed.

(** What a pass does to the occurrences of any character [d] that the
    replacement text does not contain. *)
Lemma has_char_replace_all d c rep s :
  has_char d rep = false ->
  has_char d (replace_all c rep s) =
    if Ascii.eqb c d then false else has_char d s.
Proof.
  intros Hrep. induction s as [|a s IH]; simpl.
  - destruct (Ascii.eqb c d); reflexivity.
  - destruct (Ascii.eqb a c) eqn:Eac.
    + rewrite has_char_app, Hrep, IH. simpl.
      apply Ascii.eqb_eq in Eac. subst a.
      destruct (Ascii.eqb c d); reflexivity.
    + simpl. rewrite IH.
      destruct (Ascii.eqb c d) eqn:Ecd; [|reflexivity].
      apply Ascii.eqb_eq in Ecd. subst d. rewrite Eac. reflexivity.
Qed.

Ltac pass_by_pass :=
  repeat (rewrite has_char_replace_all by reflexivity; simpl);
  try reflexivity.

Lemma sanitizeString_free s : free_of escaped7 (SecurityUtils.sanitizeString s).
Proof.
  unfold free_of, escaped7, SecurityUtils.sanitizeString.
  repeat constructor; pass_by_pass.
Qed.

Lemma sanitizeString_fixed s :
  free_of escaped7 s -> SecurityUtils.sanitizeString s = s.
Proof.
  unfold free_of, escaped7, SecurityUtils.sanitizeString. intros H.
  repeat match goal with
         | H : Forall _ (_ :: _) |- _ => apply Forall_cons in H as [? H]
         end.
  repeat (rewrite (replace_all_absent _ _ s) by assumption). reflexivity.
Qed.

Lemma validation_sanitize_free s : free_of escaped5 (Validation.sanitizeInput s).
Proof.
  unfold free_of, escaped5, Validation.sanitizeInput.
  repeat constructor; pass_by_pass.
Qed.

Lemma validation_sanitize_fixed s :
  free_of escaped5 s -> Validation.sanitizeInput s = s.
Proof.
  unfold free_of, escaped5, Validation.sanitizeInput. intros H.
  repeat match goal with
         | H : Forall _ (_ :: _) |- _ => apply Forall_cons in H as [? H]
         end.
  repeat (rewrite (replace_all_absent _ _ s) by assumption). reflexivity.
Qed.

(** The replacement texts contain none of the escaped characters. *)
Lemma replacements_are_free :
  Forall (free_of escaped7)
    ["&lt;"; "&gt;"; "&quot;"; "&#x27;"; "&#x2F;"; "&#96;"; "&#x3D;"].
Proof. repeat constructor. Qed.

(** C10. Both sanitisers are idempotent: sanitising an already sanitised
    value changes nothing.  This holds for the seven-step [sanitizeInput] of
    securityUtils.js on every JavaScript value (non-strings are returned
    unchanged) and for the five-step [sanitizeInput] of the validation
    module on every string; the reason is that each output is free of the
    characters the chain escapes. *)
Theorem sanitizeInput_idempotent :
  (forall v : JsValue,
      SecurityUtils.sanitizeInput (SecurityUtils.sanitizeInput v)
      = SecurityUtils.sanitizeInput v)
  /\ (forall s : string,
      SecurityUtils.sanitizeString (SecurityUtils.sanitizeString s)
      = SecurityUtils.sanitizeString s)
  /\ (forall s : string,
      Validation.sanitizeInput (Validation.sanitizeInput s)
      = Validation.sanitizeInput s)
  /\ Forall (free_of escaped7)
       ["&lt;"; "&gt;"; "&quot;"; "&#x27;"; "&#x2F;"; "&#96;"; "&#x3D;"].
Proof.
  split; [|split; [|split]].
  - intros [| | | |s]; simpl; try reflexivity.
    f_equal. apply sanitizeString_fixed, sanitizeString_free.
  - intros s. apply sanitizeString_fixed, sanitizeString_free.
  - intros s. apply validation_sanitize_fixed, validation_sanitize_free.
  - apply replacements_are_free.
Qed.

(** The two sanitisers on a tag with an attribute: the five-step chain
    leaves the equals sign and the backquote alone. *)
Example sanitize_markup :
  SecurityUtils.sanitizeString "<a href='x'>`1=2`</a>"
  = "&lt;a href&#x3D;&#x27;x&#x27;&gt;&#96;1&#x3D;2&#96;&lt;&#x2F;a&gt;"
  /\ Validation.sanitizeInput "<a href='x'>`1=2`</a>"
     = "&lt;a href=&#x27;x&#x27;&gt;`1=2`&lt;&#x2F;a&gt;".
Proof. split; reflexivity. Qed.

(** ** Phone validators *)

Lemma match_repeat_spec a n s rest :
  match_repeat a n s = Some rest <->
  exists pre, s = pre +:+ rest /\ String.length pre = n
              /\ all_chars (atom_matches a) pre = true.
Proof.
  revert s. induction n as [|n IH]; intros s; simpl.
  - split.
    + intros [= ->]. exists "". auto.
    + intros (pre & -> & Hlen & _). destruct pre; [reflexivity|discriminate].
  - destruct s as [|c s].
    + split; [discriminate|].
      intros (pre & Heq & Hlen & _). destruct pre; discriminate.
    + destruct (atom_matches a c) eqn:Hc.
      * rewrite IH. split.
        -- intros (pre & -> & Hlen & Hall).
           exists (String c pre). simpl. rewrite Hc, Hlen, Hall. auto.
        -- intros (pre & Heq & Hlen & Hall).
           destruct pre as [|c' pre]; [discriminate|].
           simpl in Heq, Hlen, Hall. injection Heq as -> ->.
           apply andb_true_iff in Hall as [_ Hall].
           exists pre. auto.
      * split; [discriminate|].
        intros (pre & Heq & Hlen & Hall).
        destruct pre as [|c' pre]; [discriminate|].
        simpl in Heq, Hall. injection Heq as -> ->.
        rewrite Hc in Hall. discriminate.
Qed.

Lemma append_empty_r s : s +:+ "" = s.
Proof.
  induction s as [|c s IH]; [reflexivity|].
  change (String c (s +:+ "") = String c s). by rewrite IH.
Qed.

Lemma range_6_9 c :
  atom_matches (Range "6" "9") c = true <->
  (c = "6" \/ c = "7" \/ c = "8" \/ c = "9")%char.
Proof.
  split.
  - destruct c as [b0 b1 b2 b3 b4 b5 b6 b7].
    destruct b0, b1, b2, b3, b4, b5, b6, b7; vm_compute; intros H;
      first [discriminate H | auto].
  - intros [-> | [-> | [-> | ->]]]; reflexivity.
Qed.

Lemma range_6_9_digit c :
  atom_matches (Range "6" "9") c = true -> is_digit c = true.
Proof. intros H. apply range_6_9 in H as [-> | [-> | [-> | ->]]]; reflexivity. Qed.

Lemma regex_test_nil s : regex_test [] s = true <-> s = "".
Proof. apply String.eqb_eq. Qed.

Lemma regex_test_cons a n r s :
  regex_test ((a, n) :: r) s = true <->
  exists pre rest, s = pre +:+ rest /\ String.length pre = n
                   /\ all_chars (atom_matches a) pre = true
                   /\ regex_test r rest = true.
Proof.
  cbn [regex_test].
  destruct (match_repeat a n s) as [rest|] eqn:Hm.
  - apply match_repeat_spec in Hm as (pre & -> & Hlen & Hall). split.
    + intros Hr. exists pre, rest. auto.
    + intros (pre' & rest' & Heq & Hlen' & Hall' & Hr).
      assert (match_repeat a n (pre +:+ rest) = Some rest') as E1.
      { apply match_repeat_spec. exists pre'. auto. }
      assert (match_repeat a n (pre +:+ rest) = Some rest) as E2.
      { apply match_repeat_spec. exists pre. auto. }
      congruence.
  - split; [discriminate|].
    intros (pre & rest & Heq & Hlen & Hall & _).
    assert (match_repeat a n s = Some rest) as E.
    { apply match_repeat_spec. exists pre. auto. }
    congruence.
Qed.

Lemma all_chars_app p s1 s2 :
  all_chars p (s1 +:+ s2) = all_chars p s1 && all_chars p s2.
Proof.
  induction s1 as [|c s1 IH]; [reflexivity|].
  change (p c && all_chars p (s1 +:+ s2) = p c && all_chars p s1 && all_chars p s2).
  rewrite IH. apply andb_assoc.
Qed.

Lemma all_chars_impl (p q : ascii -> bool) s :
  (forall c, p c = true -> q c = true) ->
  all_chars p s = true -> all_chars q s = true.
Proof.
  intros Hpq. induction s as [|c s IH]; [reflexivity|].
  cbn [all_chars]. rewrite !andb_true_iff. intros [Hc Hs]. auto.
Qed.

Lemma isValidPhone_spec s :
  isValidPhone s = true <-> ten_digits_leading_6_to_9 s.
Proof.
  unfold isValidPhone, ten_digits_leading_6_to_9.
  rewrite regex_test_cons. split.
  - intros (pre1 & rest1 & -> & Hl1 & Ha1 & Hr).
    apply regex_test_cons in Hr as (pre2 & rest2 & -> & Hl2 & Ha2 & Hr).
    apply regex_test_nil in Hr. subst rest2. rewrite append_empty_r.
    destruct pre1 as [|c [|c' pre1]]; try discriminate Hl1.
    cbn [all_chars] in Ha1. rewrite andb_true_r in Ha1.
    change (String c "" +:+ pre2) with (String c pre2).
    split; [cbn [String.length]; by rewrite Hl2|]. split.
    + cbn [all_chars]. rewrite (range_6_9_digit _ Ha1). exact Ha2.
    + exists c, pre2. split; [reflexivity|]. by apply range_6_9.
  - intros (Hlen & Hdig & c & rest & -> & Hc).
    cbn [String.length] in Hlen. cbn [all_chars] in Hdig.
    apply andb_true_iff in Hdig as [_ Hdig].
    exists (String c ""), rest. split; [reflexivity|].
    split; [reflexivity|]. split.
    { cbn [all_chars]. apply range_6_9 in Hc. by rewrite Hc. }
    apply regex_test_cons. exists rest, "".
    rewrite append_empty_r. split; [reflexivity|].
    split; [lia|]. split; [exact Hdig|reflexivity].
Qed.

Lemma validatePhone_spec s :
  Validation.validatePhone s = true <-> ten_digits s.
Proof.
  unfold Validation.validatePhone, ten_digits.
  rewrite regex_test_cons. split.
  - intros (pre & rest & -> & Hl & Ha & Hr).
    apply regex_test_nil in Hr. subst rest. rewrite append_empty_r. auto.
  - intros (Hlen & Hdig). exists s, "".
    rewrite append_empty_r. auto.
Qed.

(** C8. [isValidPhone] (the registrant phone validator, [/^[6-9]\d{9}$/])
    accepts exactly the ten-digit strings whose first digit is 6, 7, 8 or 9;
    it rejects 1234567890 and accepts 9876543210.  The second validator,
    [validatePhone] ([/^\d{10}$/]), accepts exactly the ten-digit strings and
    so accepts 1234567890. *)
Theorem phone_validators :
  (forall s, isValidPhone s = true <-> ten_digits_leading_6_to_9 s)
  /\ isValidPhone "1234567890" = false
  /\ isValidPhone "9876543210" = true
  /\ (forall s, Validation.validatePhone s = true <-> ten_digits s)
  /\ Validation.validatePhone "1234567890" = true
  /\ Validation.validatePhone "9876543210" = true.
Proof.
  split; [exact isValidPhone_spec|].
  split; [reflexivity|]. split; [reflexivity|].
  split; [exact validatePhone_spec|].
  split; reflexivity.
Qed.

(** ** Rate limiting *)

Section ListFacts.
Context {A B : Type}.

Lemma filter_length_mono (P Q : A -> Prop)
    `{!forall x, Decision (P x)} `{!forall x, Decision (Q x)} (l : list A) :
  (forall x, P x -> Q x) ->
  (List.length (filter P l) <= List.length (filter Q l))%nat.
Proof.
  intros HPQ. induction l as [|x l IH]; [reflexivity|].
  rewrite !filter_cons.
  destruct (decide (P x)) as [HP|HP]; destruct (decide (Q x)) as [HQ|HQ];
    simpl; try lia.
  exfalso. auto.
Qed.

Lemma filter_fmap_list (f : A -> B) (P : B -> Prop)
    `{!forall y, Decision (P y)} (l : list A) :
  filter P (f <$> l) = f <$> filter (fun x => P (f x)) l.
Proof.
  induction l as [|x l IH]; [reflexivity|].
  rewrite fmap_cons, !filter_cons.
  destruct (decide (P (f x))); [rewrite fmap_cons|]; by rewrite IH.
Qed.

Lemma filter_ext_list (P Q : A -> Prop)
    `{!forall x, Decision (P x)} `{!forall x, Decision (Q x)} (l : list A) :
  (forall x, P x <-> Q x) -> filter P l = filter Q l.
Proof.
  intros HPQ. induction l as [|x l IH]; [reflexivity|].
  rewrite !filter_cons.
  destruct (decide (P x)) as [HP|HP]; destruct (decide (Q x)) as [HQ|HQ];
    rewrite ?IH; try reflexivity; exfalso; apply HPQ in HP || apply HPQ in HQ; auto.
Qed.
Lemma filter_none (P : A -> Prop) `{!forall x, Decision (P x)} (l : list A) :
  Forall (fun x => ~ P x) l -> filter P l = [].
Proof.
  induction 1 as [|x l Hx _ IH]; [reflexivity|].
  rewrite filter_cons. by destruct (decide (P x)).
Qed.
End ListFacts.

Lemma limiter_inv_later h m t0 t1 :
  t0 <= t1 -> limiter_inv h m t0 -> limiter_inv h m t1.
Proof.
  intros Hle [Hh Hm]. split.
  - eapply Forall_impl; [exact Hh|]. simpl. intros; lia.
  - intros u t Ht. apply Hm. lia.
Qed.

Lemma limiter_inv_empty t0 : limiter_inv [] ∅ t0.
Proof.
  split; [constructor|]. intros u t _. by rewrite lookup_empty.
Qed.

(** The limiter's test reads off the allowed history. *)
Lemma checkRateLimit_recent h m t0 now u :
  limiter_inv h m t0 -> t0 <= now ->
  filter (fun ts => now - ts < 300000) (default [] (m !! u))
  = at_now <$> recent_of u now h.
Proof. intros [_ Hm] Hle. by apply Hm. Qed.

Lemma checkRateLimit_allows h m t0 a :
  limiter_inv h m t0 -> t0 <= at_now a ->
  (List.length (recent_of (at_userId a) (at_now a) h) < 3)%nat ->
  PaymentService.checkRateLimit (at_now a) (at_userId a) m
  = (Return true,
     <[at_userId a := ((at_now <$> recent_of (at_userId a) (at_now a) h) ++ [at_now a])%list]> m).
Proof.
  intros Hinv Hle Hlen. unfold PaymentService.checkRateLimit.
  rewrite (checkRateLimit_recent h m t0) by assumption.
  rewrite length_fmap.
  destruct (Nat.leb_spec 3 (List.length (recent_of (at_userId a) (at_now a) h)));
    [lia|reflexivity].
Qed.

Lemma checkRateLimit_refuses h m t0 a :
  limiter_inv h m t0 -> t0 <= at_now a ->
  (3 <= List.length (recent_of (at_userId a) (at_now a) h))%nat ->
  PaymentService.checkRateLimit (at_now a) (at_userId a) m
  = (Throw "Too many payment attempts. Please try again later.", m).
Proof.
  intros Hinv Hle Hlen. unfold PaymentService.checkRateLimit.
  rewrite (checkRateLimit_recent h m t0) by assumption.
  rewrite length_fmap.
  destruct (Nat.leb_spec 3 (List.length (recent_of (at_userId a) (at_now a) h)));
    [reflexivity|lia].
Qed.

(** Allowing [a] keeps the invariant, with the clock at [a]'s time. *)
Lemma limiter_inv_allow h m t0 a :
  limiter_inv h m t0 -> t0 <= at_now a ->
  limiter_inv (h ++ [a])
    (<[at_userId a := ((at_now <$> recent_of (at_userId a) (at_now a) h) ++ [at_now a])%list]> m)
    (at_now a).
Proof.
  intros [Hh Hm] Hle. split.
  - apply Forall_app. split.
    + eapply Forall_impl; [exact Hh|]. simpl. intros; lia.
    + repeat constructor. lia.
  - intros u t Ht. unfold recent_of. rewrite filter_app, fmap_app.
    destruct (decide (at_userId a = u)) as [<-|Hne].
    + rewrite lookup_insert_eq. simpl. rewrite filter_app. f_equal.
      * rewrite filter_fmap_list. f_equal. unfold recent_of.
        rewrite list_filter_filter. apply filter_ext_list.
        intros x. split; [intros (? & ? & ?); auto|].
        intros [? ?]. repeat split; auto; lia.
      * rewrite !filter_cons, !filter_nil.
        destruct (decide (t - at_now a < 300000));
          destruct (decide (at_userId a = at_userId a ∧ t - at_now a < 300000));
          try reflexivity; exfalso; tauto.
    + rewrite lookup_insert_ne by done.
      rewrite Hm by lia.
      rewrite filter_cons, filter_nil.
      destruct (decide (at_userId a = u ∧ t - at_now a < 300000)) as [[? _]|_];
        [done|]. by rewrite app_nil_r.
Qed.

(** Allowing [a] keeps the window bound: everything of [a]'s user already
    in a window that contains [a] is recent for [a], and fewer than three
    attempts are. *)
Lemma window_bound_allow h t0 a :
  Forall (fun b => at_now b <= t0) h -> t0 <= at_now a ->
  (List.length (recent_of (at_userId a) (at_now a) h) < 3)%nat ->
  window_bound h -> window_bound (h ++ [a]).
Proof.
  intros Hh Hle Hlen Hb u w. rewrite filter_app, length_app.
  rewrite filter_cons, filter_nil.
  destruct (decide (in_window u w a)) as [[Hu Hw]|_]; simpl.
  - assert (List.length (filter (in_window u w) h)
            <= List.length (recent_of (at_userId a) (at_now a) h))%nat; [|lia].
    unfold recent_of. apply filter_length_mono.
    intros x [Hx Hwx]. split; [congruence|lia].
  - specialize (Hb u w). lia.
Qed.

Lemma allowed_window_bound attempts : forall h m t0,
  limiter_inv h m t0 -> window_bound h ->
  Forall (fun a => t0 <= at_now a) attempts ->
  clock_monotone attempts ->
  window_bound (h ++ PaymentService.allowed attempts m).
Proof.
  induction attempts as [|a rest IH]; intros h m t0 Hinv Hb Hge Hmono.
  - simpl. by rewrite app_nil_r.
  - apply Forall_cons in Hge as [Ha Hge]. destruct Hmono as [Hrest Hmono].
    cbn [PaymentService.allowed].
    destruct (le_lt_dec 3 (List.length (recent_of (at_userId a) (at_now a) h)))
      as [Hfull|Hroom].
    + rewrite (checkRateLimit_refuses h m t0) by assumption.
      apply (IH h m (at_now a)); auto.
      by apply (limiter_inv_later h m t0).
    + rewrite (checkRateLimit_allows h m t0) by assumption.
      rewrite (cons_middle a), app_assoc.
      apply (IH _ _ (at_now a)); auto.
      * by apply (limiter_inv_allow h m t0).
      * destruct Hinv as [Hh _]. by apply (window_bound_allow h t0).
Qed.

(** ** The hook's own limiter over a run *)

Lemma hook_inv_later h r t0 t1 :
  t0 <= t1 -> hook_inv h r t0 -> hook_inv h r t1.
Proof.
  intros Hle (old & burst & b & Hh & Hc & Hb & Hold & Hl).
  exists old, burst, b. repeat split; auto; [lia|].
  destruct (SecureRecruit.lastPaymentTime r); [|exact Hl].
  destruct Hl. split; [done|lia].
Qed.

(** One call of [handlePayment] at clock values [tc <= ts], from a state
    that satisfies the invariant. *)
Lemma handlePayment_step h r t0 tc ts :
  hook_inv h r t0 -> span_bound h -> t0 <= tc -> tc <= ts ->
  (exists toast, SecureRecruit.handlePayment tc ts r = (SecureRecruit.Refused toast, r))
  \/ (exists r', SecureRecruit.handlePayment tc ts r = (SecureRecruit.HandedOver, r')
                 /\ hook_inv (h ++ [ts]) r' ts /\ span_bound (h ++ [ts])).
Proof.
  intros (old & burst & b & Hh & Hc & Hb & Hold & Hl) Hspan Htc Hts.
  (* the state after the reset step, with its own split of the history *)
  assert (Hreset : exists r1 old1 burst1 b1,
    (SecureRecruit.checkPaymentRateLimit tc r).2 = r1
    /\ (r1 = r \/ SecureRecruit.paymentAttempts r1 = 0)
    /\ h = (old1 ++ burst1)%list
    /\ SecureRecruit.paymentAttempts r1 = Z.of_nat (List.length burst1)
    /\ b1 <= tc
    /\ Forall (fun t => t + 300000 < b1) old1
    /\ (SecureRecruit.checkPaymentRateLimit tc r).1.1
       = negb (3 <=? SecureRecruit.paymentAttempts r1)).
  { unfold SecureRecruit.checkPaymentRateLimit.
    destruct (SecureRecruit.lastPaymentTime r) as [l|] eqn:El.
    - destruct (negb (l =? 0) && (300000 <? tc - l)) eqn:Er.
      + apply andb_true_iff in Er as [_ Er]. apply Z.ltb_lt in Er.
        destruct Hl as [Hall _].
        eexists _, h, [], tc. cbn [SecureRecruit.paymentAttempts].
        split; [reflexivity|]. split; [by right|].
        split; [by rewrite app_nil_r|]. split; [reflexivity|]. split; [lia|].
        split; [|reflexivity].
        eapply Forall_impl; [exact Hall|]. simpl. intros; lia.
      + exists r, old, burst, b. split.
        { by destruct (3 <=? SecureRecruit.paymentAttempts r). }
        split; [by left|]. split; [done|]. split; [done|]. split; [lia|].
        split; [done|]. by destruct (3 <=? SecureRecruit.paymentAttempts r).
    - exists r, old, burst, b. split.
      { by destruct (3 <=? SecureRecruit.paymentAttempts r). }
      split; [by left|]. split; [done|]. split; [done|]. split; [lia|].
      split; [done|]. by destruct (3 <=? SecureRecruit.paymentAttempts r). }
  destruct Hreset as (r1 & old1 & burst1 & b1 & Hr1 & Hsame & Hh1 & Hc1 & Hb1 & Hold1 & Hres).
  unfold SecureRecruit.handlePayment.
  destruct (SecureRecruit.checkPaymentRateLimit tc r) as [[ok toast] r1'].
  cbn [fst snd] in Hr1, Hres. subst r1'.
  destruct (Z.leb_spec 3 (SecureRecruit.paymentAttempts r1)) as [Hfull|Hroom];
    cbn [negb] in Hres; subst ok.
  - left. exists toast. destruct Hsame as [->|H0]; [reflexivity|lia].
  - right. eexists. split; [reflexivity|]. split.
    + exists old1, (burst1 ++ [ts])%list, b1.
      cbn [SecureRecruit.paymentAttempts SecureRecruit.lastPaymentTime].
      split; [by rewrite Hh1, app_assoc|].
      split; [rewrite length_app; simpl; lia|].
      split; [lia|]. split; [done|]. split; [|lia].
      apply Forall_app. split; [|by repeat constructor].
      (* every earlier stamp is at most [t0] *)
      destruct (SecureRecruit.lastPaymentTime r) as [l|].
      * destruct Hl as [Hall Hl]. eapply Forall_impl; [exact Hall|].
        simpl. intros; lia.
      * rewrite Hl. constructor.
    + intros w. rewrite filter_app, length_app, filter_cons, filter_nil.
      destruct (decide (in_span w ts)) as [Hw|_]; simpl;
        [|specialize (Hspan w); lia].
      assert (List.length (filter (in_span w) h) <= List.length burst1)%nat; [|lia].
      rewrite Hh1, filter_app, length_app.
      assert (filter (in_span w) old1 = []) as ->.
      { apply filter_none. eapply Forall_impl; [exact Hold1|].
        simpl. unfold in_span in *. intros; lia. }
      simpl. apply length_filter.
Qed.

Lemma handed_over_span_bound calls : forall h r t0,
  hook_inv h r t0 -> span_bound h ->
  Forall (fun c => t0 <= c.1) calls ->
  hook_clock_monotone calls ->
  span_bound (h ++ handed_over calls r).
Proof.
  induction calls as [|[tc ts] rest IH]; intros h r t0 Hinv Hspan Hge Hmono.
  - simpl. by rewrite app_nil_r.
  - apply Forall_cons in Hge as [Htc Hge]. simpl in Htc.
    destruct Hmono as (Hts & Hrest & Hmono).
    cbn [handed_over].
    destruct (handlePayment_step h r t0 tc ts Hinv Hspan Htc Hts)
      as [(toast & ->)|(r' & -> & Hinv' & Hspan')].
    + apply (IH h r ts); auto. apply (hook_inv_later h r t0); [lia|done].
    + rewrite (cons_middle ts), app_assoc. by apply (IH _ r' ts).
Qed.

(** Without a successful payment in between, at most three calls of
    [handlePayment] stamped within any window of 300000 ms go on to the
    payment service. *)
Lemma hook_three_per_window calls :
  hook_clock_monotone calls ->
  span_bound (handed_over calls SecureRecruit.initial).
Proof.
  intros Hmono.
  pose (t0 := match calls with [] => 0 | c :: _ => c.1 end).
  apply (handed_over_span_bound calls [] SecureRecruit.initial t0); auto.
  - exists [], [], t0. repeat split; auto; lia.
  - intros w. simpl. lia.
  - destruct calls as [|[tc ts] rest]; [constructor|].
    destruct Hmono as (Hts & Hrest & _). constructor; [subst t0; simpl; lia|].
    eapply Forall_impl; [exact Hrest|]. subst t0. simpl. intros; lia.
Qed.

Section ServiceSession.

Variable membershipPlans : list ClientPlan.
Variable validatePaymentData : FormData -> string -> outcome bool.
Variable apiBaseUrl : string.
Variable fetch : CreateOrderRequest -> outcome (bool * ClientOrder).

Local Abbreviation createOrder :=
  (PaymentService.createOrder membershipPlans validatePaymentData apiBaseUrl fetch).
Local Abbreviation session :=
  (PaymentService.session membershipPlans validatePaymentData apiBaseUrl fetch).

(** A refused attempt ends [createOrder] at once. *)
Lemma createOrder_refused a m e m' :
  PaymentService.checkRateLimit (at_now a) (at_userId a) m = (Throw e, m') ->
  createOrder a m = ((Throw e, []), m').
Proof. intros H. unfold PaymentService.createOrder. by rewrite H. Qed.

(** An allowed attempt leaves the map as the limiter wrote it. *)
Lemma createOrder_allowed a m v m' :
  PaymentService.checkRateLimit (at_now a) (at_userId a) m = (Return v, m') ->
  (createOrder a m).2 = m'.
Proof.
  intros H. unfold PaymentService.createOrder. rewrite H.
  destruct (find _ membershipPlans); [|reflexivity].
  destruct (validatePaymentData _ _); [|reflexivity].
  destruct (negb _); [|reflexivity].
  destruct (fetch _) as [[[] ?]|]; reflexivity.
Qed.

(** Requests are only sent during allowed attempts. *)
Lemma session_requests_allowed u w attempts : forall m,
  (List.length (filter (fun e => sent_request e /\ in_window u w e.1) (session attempts m).1)
   <= List.length (filter (in_window u w) (PaymentService.allowed attempts m)))%nat.
Proof.
  induction attempts as [|a rest IH]; intros m; [reflexivity|].
  cbn [PaymentService.session PaymentService.allowed].
  destruct (PaymentService.checkRateLimit (at_now a) (at_userId a) m)
    as [[v|e] m'] eqn:Hc.
  - pose proof (createOrder_allowed a m v m' Hc) as Hm.
    destruct (createOrder a m) as [r m1]. simpl in Hm. subst m1.
    specialize (IH m'). destruct (session rest m') as [log m2]. simpl in *.
    rewrite !filter_cons.
    repeat case_decide; simpl in *; try lia. tauto.
  - rewrite (createOrder_refused a m e m' Hc).
    specialize (IH m'). destruct (session rest m') as [log m2]. simpl in *.
    rewrite filter_cons.
    case_decide as Hd; [|exact IH].
    exfalso. destruct Hd as [Hs _]. by apply Hs.
Qed.

(** The invariant holds at the end of a session. *)
Lemma session_limiter_inv attempts : forall h m t0 t1,
  limiter_inv h m t0 ->
  Forall (fun a => t0 <= at_now a) attempts ->
  clock_monotone attempts ->
  t0 <= t1 -> Forall (fun a => at_now a <= t1) attempts ->
  limiter_inv (h ++ PaymentService.allowed attempts m) (session attempts m).2 t1.
Proof.
  induction attempts as [|a rest IH]; intros h m t0 t1 Hinv Hge Hmono Hle Hlast.
  - simpl. rewrite app_nil_r. by apply (limiter_inv_later h m t0).
  - apply Forall_cons in Hge as [Ha Hge]. destruct Hmono as [Hrest Hmono].
    apply Forall_cons in Hlast as [Ha1 Hlast].
    cbn [PaymentService.session PaymentService.allowed].
    destruct (le_lt_dec 3 (List.length (recent_of (at_userId a) (at_now a) h)))
      as [Hfull|Hroom].
    + pose proof (checkRateLimit_refuses h m t0 a Hinv Ha Hfull) as Hc.
      rewrite Hc, (createOrder_refused a m _ m Hc).
      specialize (IH h m (at_now a) t1).
      destruct (session rest m) as [log m2]. simpl in *.
      apply IH; auto. by apply (limiter_inv_later h m t0).
    + pose proof (checkRateLimit_allows h m t0 a Hinv Ha Hroom) as Hc.
      rewrite Hc. pose proof (createOrder_allowed a m _ _ Hc) as Hm.
      destruct (createOrder a m) as [r m1]. simpl in Hm. subst m1.
      rewrite (cons_middle a), app_assoc.
      match goal with
      | |- context [session rest ?m'] =>
          specialize (IH (h ++ [a])%list m' (at_now a) t1);
          destruct (session rest m') as [log m2]
      end.
      simpl in *. apply IH; auto.
      by apply (limiter_inv_allow h m t0).
Qed.

(** C7. In every session of the payment service whose clock does not run
    backwards, each user has at most three allowed attempts, and hence
    at most three attempts that sent an order-creation request, in any
    window of 300000 ms; an attempt made while three allowed attempts of
    the same user are less than 300000 ms old makes [createOrder] throw
    the cooldown error without sending a request and without touching the
    map.  The recruitment hook's own limiter likewise stops
    [handlePayment] with its cooldown toast, before the payment service is
    reached, when three attempts are counted and the last one is at most
    300000 ms old; over a run of the hook with no successful payment in
    between, it lets at most three calls stamped within any window of
    300000 ms through to the payment service. *)
Theorem rate_limit_three_per_window (attempts : list Attempt) :
  clock_monotone attempts ->
  (forall u w,
      (List.length (filter (in_window u w) (PaymentService.allowed attempts ∅)) <= 3)%nat)
  /\ (forall u w,
      (List.length (filter (fun e => sent_request e /\ in_window u w e.1)
                           (session attempts ∅).1) <= 3)%nat)
  /\ (forall a,
      Forall (fun b => at_now b <= at_now a) attempts ->
      (3 <= List.length (recent_of (at_userId a) (at_now a)
                                   (PaymentService.allowed attempts ∅)))%nat ->
      createOrder a (session attempts ∅).2
      = ((Throw "Too many payment attempts. Please try again later.", []),
         (session attempts ∅).2))
  /\ (forall r last now_check now_stamp,
      3 <= SecureRecruit.paymentAttempts r ->
      SecureRecruit.lastPaymentTime r = Some last ->
      now_check - last <= 300000 ->
      SecureRecruit.handlePayment now_check now_stamp r
      = (SecureRecruit.Refused
           (Some ("Too many payment attempts. Please wait "
                  +:+ pretty (SecureRecruit.ceil_minutes (300000 - (now_check - last)))
                  +:+ " minutes.")), r))
  /\ (forall calls w,
      hook_clock_monotone calls ->
      (List.length (filter (in_span w) (handed_over calls SecureRecruit.initial)) <= 3)%nat).
Proof.
  intros Hmono.
  assert (Hnil : window_bound ([] ++ PaymentService.allowed attempts ∅)).
  { pose (t0 := match attempts with [] => 0 | a :: _ => at_now a end).
    apply (allowed_window_bound attempts [] ∅ t0); auto.
    - apply limiter_inv_empty.
    - intros u w. simpl. lia.
    - destruct attempts as [|a rest]; [constructor|].
      destruct Hmono as [Hrest _]. constructor; [subst t0; simpl; lia|].
      exact Hrest. }
  simpl in Hnil.
  split; [exact Hnil|]. split; [|split; [|split]].
  - intros u w. etrans; [apply session_requests_allowed|apply Hnil].
  - intros a Hlast Hfull.
    pose (t0 := match attempts with [] => at_now a | b :: _ => at_now b end).
    assert (Ht0 : t0 <= at_now a).
    { subst t0. destruct attempts as [|b rest]; [lia|].
      by apply Forall_cons in Hlast as [? _]. }
    assert (Hinv : limiter_inv ([] ++ PaymentService.allowed attempts ∅)
                     (session attempts ∅).2 (at_now a)).
    { apply (session_limiter_inv attempts [] ∅ t0); auto.
      - apply limiter_inv_empty.
      - destruct attempts as [|b rest]; [constructor|].
        destruct Hmono as [Hrest _]. constructor; [subst t0; simpl; lia|].
        exact Hrest. }
    simpl in Hinv.
    apply createOrder_refused.
    apply (checkRateLimit_refuses (PaymentService.allowed attempts ∅) _ (at_now a));
      auto. lia.
  - intros r last now_check now_stamp Hcnt Hlast Hrecent.
    unfold SecureRecruit.handlePayment, SecureRecruit.checkPaymentRateLimit.
    rewrite Hlast.
    replace (300000 <? now_check - last) with false
      by (symmetry; apply Z.ltb_ge; lia).
    rewrite andb_false_r.
    replace (3 <=? SecureRecruit.paymentAttempts r) with true
      by (symmetry; apply Z.leb_le; lia).
    rewrite Hlast. reflexivity.
  - intros calls w Hcalls. by apply hook_three_per_window.
Qed.

End ServiceSession.

(** ** The plan catalogue *)

Lemma MEMBERSHIP_PLANS_lookup planId plan :
  MEMBERSHIP_PLANS !! planId = Some plan ->
  (planId = "one-year" /\ price plan = 358)
  \/ (planId = "two-year" /\ price plan = 664)
  \/ (planId = "three-year" /\ price plan = 919).
Proof.
  unfold MEMBERSHIP_PLANS. intros H.
  destruct (decide ("one-year" = planId)) as [<-|N1].
  { rewrite lookup_insert_eq in H. injection H as <-. auto. }
  rewrite lookup_insert_ne in H by done.
  destruct (decide ("two-year" = planId)) as [<-|N2].
  { rewrite lookup_insert_eq in H. injection H as <-. auto. }
  rewrite lookup_insert_ne in H by done.
  destruct (decide ("three-year" = planId)) as [<-|N3].
  { rewrite lookup_insert_eq in H. injection H as <-. auto 6. }
  rewrite lookup_insert_ne in H by done.
  by rewrite lookup_empty in H.
Qed.

Lemma supported_plan_truthy planId plan :
  MEMBERSHIP_PLANS !! planId = Some plan -> truthy (Some planId) = true.
Proof.
  intros H. apply MEMBERSHIP_PLANS_lookup in H as [[-> _]|[[-> _]|[-> _]]];
    reflexivity.
Qed.

Lemma supported_plan_get planId plan :
  MEMBERSHIP_PLANS !! planId = Some plan -> plans_get planId = OwnPlan plan.
Proof. intros H. unfold plans_get. by rewrite H. Qed.

(** ** Order creation *)

Section OrderProperties.

Variable razorpay_orders_create : OrderOptions -> outcome Order.

Local Abbreviation create_order := (Backend.create_order razorpay_orders_create).
Local Abbreviation guarded_create_order :=
  (BackendGuarded.create_order razorpay_orders_create).

Lemma create_order_supported env now body planId plan :
  b_planId body = Some planId ->
  MEMBERSHIP_PLANS !! planId = Some plan ->
  (create_order env now body).2 = [order_options now body planId plan].
Proof.
  intros Hb Hp. unfold Backend.create_order. rewrite Hb.
  rewrite (supported_plan_truthy _ _ Hp), (supported_plan_get _ _ Hp).
  simpl. by destruct (razorpay_orders_create _).
Qed.

Lemma guarded_create_order_supported env flt fs today now body planId plan :
  b_planId body = Some planId ->
  MEMBERSHIP_PLANS !! planId = Some plan ->
  (guarded_create_order env flt fs today now body).2 = []
  \/ (guarded_create_order env flt fs today now body).2
     = [order_options now body planId plan].
Proof.
  intros Hb Hp. unfold BackendGuarded.create_order. rewrite Hb.
  rewrite (supported_plan_truthy _ _ Hp), (supported_plan_get _ _ Hp).
  simpl. destruct (users_doc _); [|by left].
  destruct (doc_get _ _ _); [|by left].
  destruct (BackendGuarded.already_subscribed _ _); [by left|].
  right. by destruct (razorpay_orders_create _).
Qed.

Lemma guarded_create_order_passes env flt fs today now body planId plan id :
  b_planId body = Some planId ->
  MEMBERSHIP_PLANS !! planId = Some plan ->
  b_userId body = Some id -> id <> "" ->
  get_throws flt = false ->
  BackendGuarded.already_subscribed today (users fs !! id) = false ->
  (guarded_create_order env flt fs today now body).2
  = [order_options now body planId plan]
  /\ guarded_create_order env flt fs today now body = create_order env now body.
Proof.
  intros Hb Hp Hu Hid Hget Hsub.
  unfold BackendGuarded.create_order, Backend.create_order. rewrite Hb.
  rewrite (supported_plan_truthy _ _ Hp), (supported_plan_get _ _ Hp).
  cbn [negb]. rewrite Hu. unfold users_doc.
  destruct (String.eqb_spec id ""); [done|].
  unfold doc_get. rewrite Hget, Hsub. unfold order_options. rewrite Hu. simpl.
  destruct (razorpay_orders_create _); split; reflexivity.
Qed.

Lemma guarded_create_order_called env flt fs today now body :
  (guarded_create_order env flt fs today now body).2 <> [] ->
  exists id,
    users_doc (b_userId body) = Return id
    /\ get_throws flt = false
    /\ BackendGuarded.already_subscribed today (users fs !! id) = false.
Proof.
  unfold BackendGuarded.create_order.
  destruct (b_planId body) as [planId|]; [|done].
  destruct (negb (truthy (Some planId))); [done|].
  destruct (users_doc (b_userId body)) as [id|e] eqn:Hid.
  - unfold doc_get. destruct (get_throws flt) eqn:Hget.
    + by destruct (plans_get planId).
    + destruct (BackendGuarded.already_subscribed today (users fs !! id)) eqn:Hsub.
      * by destruct (plans_get planId).
      * intros _. by exists id.
  - by destruct (plans_get planId).
Qed.

(** C1. For a plan of the catalogue, [/create-order] asks the gateway for
    exactly one order whose amount is the catalogue price times 100
    (35800, 66400 or 91900 paise).  The guarded copy asks for that same
    order, and answers as backend/index.js does, whenever the request
    names a user (a non-empty id with no [/]) whose document is read and
    shows no current active membership; it asks for no order otherwise,
    that is when the user id is missing or refused, the read fails, or the
    guard refuses.  In both copies the whole outcome (response and gateway
    calls) is the same whatever [amount] the request body carries. *)
Theorem create_order_amount_from_catalog env flt fs today now body planId plan :
  b_planId body = Some planId ->
  MEMBERSHIP_PLANS !! planId = Some plan ->
  (exists options,
      (create_order env now body).2 = [options]
      /\ oo_amount options = Num (price plan * 100))
  /\ ((guarded_create_order env flt fs today now body).2 = []
      \/ exists options,
          (guarded_create_order env flt fs today now body).2 = [options]
          /\ oo_amount options = Num (price plan * 100))
  /\ (forall id,
        b_userId body = Some id -> id <> "" -> has_char "/" id = false ->
        get_throws flt = false ->
        BackendGuarded.already_subscribed today (users fs !! id) = false ->
        (exists options,
            (guarded_create_order env flt fs today now body).2 = [options]
            /\ oo_amount options = Num (price plan * 100)
            /\ oo_currency options = "INR")
        /\ guarded_create_order env flt fs today now body = create_order env now body)
  /\ ((guarded_create_order env flt fs today now body).2 <> [] ->
      exists id,
        users_doc (b_userId body) = Return id
        /\ get_throws flt = false
        /\ BackendGuarded.already_subscribed today (users fs !! id) = false)
  /\ (price plan * 100 = 35800 \/ price plan * 100 = 66400 \/ price plan * 100 = 91900)
  /\ (forall a,
        create_order env now (with_amount a body) = create_order env now body
        /\ guarded_create_order env flt fs today now (with_amount a body)
           = guarded_create_order env flt fs today now body).
Proof.
  intros Hb Hp. split; [|split; [|split; [|split; [|split]]]].
  - eexists. split; [by apply create_order_supported|reflexivity].
  - destruct (guarded_create_order_supported env flt fs today now body planId plan Hb Hp)
      as [H|H]; [by left|right].
    eexists. split; [exact H|reflexivity].
  - intros id Hu Hid _ Hget Hsub.
    destruct (guarded_create_order_passes env flt fs today now body planId plan id
                Hb Hp Hu Hid Hget Hsub) as [Hcall Heq].
    split; [|exact Heq].
    eexists. split; [exact Hcall|]. split; reflexivity.
  - apply guarded_create_order_called.
  - apply MEMBERSHIP_PLANS_lookup in Hp as [[_ ->]|[[_ ->]|[_ ->]]]; auto.
  - intros a. split; reflexivity.
Qed.

(** C5. A user whose stored membership is [active] with an expiry still
    ahead is refused by the guarded copy with status 400 and no gateway
    call, for every request body naming that user (with the guard's own
    message whenever the plan is one of the catalogue); the copy
    without the guard calls the gateway for the catalogue amount and, when
    the gateway returns an order, answers 200 with that order. *)
Theorem duplicate_purchase_guard env flt fs today now body id userData membership expiry :
  b_userId body = Some id -> id <> "" ->
  get_throws flt = false ->
  users fs !! id = Some userData ->
  u_membership userData = Some membership ->
  m_status membership = Some "active" ->
  m_expiresAt membership = Some expiry ->
  today < expiry ->
  (res_status (guarded_create_order env flt fs today now body).1 = 400
   /\ (guarded_create_order env flt fs today now body).2 = [])
  /\ (forall planId plan,
        b_planId body = Some planId ->
        MEMBERSHIP_PLANS !! planId = Some plan ->
        guarded_create_order env flt fs today now body
        = (res_with 400 (json_error "User already has an active subscription"), [])
        /\ (create_order env now body).2 = [order_options now body planId plan]
        /\ forall order,
            razorpay_orders_create (order_options now body planId plan) = Return order ->
            (create_order env now body).1
            = res_ok (json_order (order_id order) (order_amount order)
                                 (order_currency order) (RAZORPAY_KEY_ID env))).
Proof.
  intros Hu Hid Hget Hdoc Hm Hst Hexp Hlt.
  assert (Hguard : BackendGuarded.already_subscribed today (Some userData) = true).
  { unfold BackendGuarded.already_subscribed. rewrite Hm, Hst, Hexp. simpl.
    by apply Z.ltb_lt. }
  assert (Hdocid : users_doc (Some id) = Return id).
  { unfold users_doc. destruct (String.eqb_spec id ""); [done|reflexivity]. }
  split.
  - unfold BackendGuarded.create_order.
    destruct (b_planId body) as [planId|]; [|by split].
    destruct (negb (truthy (Some planId))); [by split|].
    rewrite Hu, Hdocid. unfold doc_get. rewrite Hget, Hdoc, Hguard.
    destruct (plans_get planId); by split.
  - intros planId plan Hb Hp. split; [|split].
    + unfold BackendGuarded.create_order. rewrite Hb.
      rewrite (supported_plan_truthy _ _ Hp), (supported_plan_get _ _ Hp).
      simpl. rewrite Hu, Hdocid. unfold doc_get.
      by rewrite Hget, Hdoc, Hguard.
    + by apply create_order_supported.
    + intros order Ho. unfold Backend.create_order. rewrite Hb.
      rewrite (supported_plan_truthy _ _ Hp), (supported_plan_get _ _ Hp).
      simpl. fold (order_options now body planId plan). by rewrite Ho.
Qed.

End OrderProperties.

(** ** Signature verification *)







Lemma strict_eq_true a b : strict_eq a b = true <-> a = Some b.
Proof.
  destruct a as [s|]; simpl; [|split; discriminate].
  rewrite String.eqb_eq. split; congruence.
Qed.


Section VerifyProperties.

Variable hmac_sha256_hex : string -> string -> string.

Local Abbreviation verify_payment := (Backend.verify_payment hmac_sha256_hex).






End VerifyProperties.

(** ** The webhook *)

Lemma truthy_Some s : s <> "" -> truthy (Some s) = true.
Proof. intros H. simpl. by destruct (String.eqb_spec s ""). Qed.

Section WebhookProperties.

Variable hmac_sha256_hex : string -> string -> string.
Variable JSON_stringify : WebhookBody -> string.

Local Abbreviation webhook := (Backend.webhook hmac_sha256_hex JSON_stringify).
Local Abbreviation guarded_webhook :=
  (BackendGuarded.webhook hmac_sha256_hex JSON_stringify).
Local Abbreviation signed := (correctly_signed hmac_sha256_hex JSON_stringify).

(** Both copies run the same verification before anything else. *)
Ltac verify_signed Hsig :=
  destruct Hsig as (secret & signature & Hsecret & Hheader & Hne & Hdigest);
  unfold Backend.webhook, BackendGuarded.webhook;
  rewrite Hheader, (truthy_Some _ Hne), Hsecret; cbn [negb];
  rewrite <- Hdigest; cbn [strict_eq]; rewrite String.eqb_refl.

(** C3. A webhook request whose signature header is missing, or differs
    from the digest the handler computes over the request body with the
    webhook secret, is answered 400 and leaves the whole store (user
    documents and payment ledger) exactly as it was, in both copies of
    the backend and whatever the event and the payload are. *)
Theorem webhook_rejects_unsigned env flt now req fs :
  signature_missing req \/ signature_mismatch hmac_sha256_hex JSON_stringify env req ->
  (exists msg, webhook env flt now req fs
               = (Some (res_with 400 (json_error msg)), fs))
  /\ (exists msg, guarded_webhook env flt now req fs
                  = (Some (res_with 400 (json_error msg)), fs)).
Proof.
  unfold signature_missing, signature_mismatch, Backend.webhook,
    BackendGuarded.webhook.
  intros [Hmiss|(secret & Hsecret & Hne)].
  - rewrite Hmiss. split; by exists "Missing signature".
  - destruct (truthy (x_razorpay_signature req)); cbn [negb];
      [|split; by exists "Missing signature"].
    rewrite Hsecret.
    destruct (strict_eq _ _) eqn:E.
    { apply strict_eq_true in E. contradiction. }
    split; by exists "Invalid signature".
Qed.

(** Whatever the request, a handler that did not verify it wrote
    nothing: this also covers an unset webhook secret, where the handler
    throws before answering. *)
Lemma webhook_unverified_store env flt now req fs :
  ~ signed env req ->
  (webhook env flt now req fs).2 = fs
  /\ (guarded_webhook env flt now req fs).2 = fs.
Proof.
  intros Hns. unfold Backend.webhook, BackendGuarded.webhook.
  destruct (x_razorpay_signature req) as [sg|] eqn:Hh; [|by split].
  destruct (truthy (Some sg)) eqn:Ht; cbn [negb]; [|by split].
  destruct (WEBHOOK_SECRET env) as [secret|] eqn:Hs; [|by split].
  destruct (strict_eq _ _) eqn:E; [|by split].
  exfalso. apply Hns. apply strict_eq_true in E. injection E as E.
  exists secret, sg. repeat split; auto.
  intros ->. discriminate.
Qed.

(** C6. A correctly signed request that is not a captured payment, or is
    a captured payment whose notes lack the user id or the plan id, is
    answered 200 [{status: "ok"}] and leaves the store exactly as it
    was, in both copies of the backend. *)
Theorem webhook_inapplicable_is_noop env flt now req fs :
  signed env req ->
  inapplicable (wr_body req) ->
  webhook env flt now req fs = (Some (res_ok (json_status "ok")), fs)
  /\ guarded_webhook env flt now req fs = (Some (res_ok (json_status "ok")), fs).
Proof.
  intros Hsig Hin. verify_signed Hsig.
  destruct Hin as [Hev|(payment & Hpay & Hnotes)].
  - destruct (strict_eq (wb_event (wr_body req)) "payment.captured") eqn:E;
      [|by split].
    apply strict_eq_true in E. contradiction.
  - destruct (strict_eq (wb_event (wr_body req)) "payment.captured");
      [|by split].
    rewrite Hpay.
    destruct (n_userId (pay_notes payment)) as [userId|];
      destruct (n_planId (pay_notes payment)) as [planId|]; try by split.
    destruct Hnotes as [Hn|Hn]; rewrite Hn; [|rewrite andb_false_r]; by split.
Qed.

(** What both copies do with a verified captured payment that carries
    both identifiers, for each behaviour of the store. *)
Lemma webhook_captured env flt now req fs payment userId planId :
  signed env req ->
  captured_for (wr_body req) payment userId planId ->
  webhook env flt now req fs
  = (if set_throws flt then
       (Some (res_with 500 (json_error "Database update failed")), fs)
     else if add_throws flt then
       (Some (res_with 500 (json_error "Database update failed")),
        after_merge fs userId (Backend.user_update now planId))
     else
       (Some (res_ok (json_status "ok")),
        after_add (after_merge fs userId (Backend.user_update now planId))
                  (payment_row userId planId payment))).
Proof.
  intros Hsig (Hev & Hpay & Hu & Hune & Hp & Hpne). verify_signed Hsig.
  rewrite Hev. cbn [strict_eq]. rewrite String.eqb_refl, Hpay, Hu, Hp.
  rewrite (truthy_Some _ Hune), (truthy_Some _ Hpne). cbn [andb].
  unfold doc_set_merge, payments_add.
  destruct (set_throws flt); [reflexivity|].
  by destruct (add_throws flt).
Qed.

Lemma guarded_webhook_captured env flt now req fs payment userId planId :
  signed env req ->
  captured_for (wr_body req) payment userId planId ->
  guarded_webhook env flt now req fs
  = (if set_throws flt then
       (Some (res_with 500 (json_error "Database update failed")), fs)
     else if add_throws flt then
       (Some (res_with 500 (json_error "Database update failed")),
        after_merge fs userId (BackendGuarded.user_update now planId))
     else
       (Some (res_ok (json_status "ok")),
        after_add (after_merge fs userId (BackendGuarded.user_update now planId))
                  (payment_row userId planId payment))).
Proof.
  intros Hsig (Hev & Hpay & Hu & Hune & Hp & Hpne). verify_signed Hsig.
  rewrite Hev. cbn [strict_eq]. rewrite String.eqb_refl, Hpay, Hu, Hp.
  rewrite (truthy_Some _ Hune), (truthy_Some _ Hpne). cbn [andb].
  unfold doc_set_merge, payments_add.
  destruct (set_throws flt); [reflexivity|].
  by destruct (add_throws flt).
Qed.

(** The membership a merge of the webhook's data leaves in the store. *)
Lemma after_merge_membership fs userId data m :
  u_membership data = Some m ->
  exists doc,
    users (after_merge fs userId data) !! userId = Some doc
    /\ u_membership doc
       = Some (merge_membership m (users fs !! userId ≫= u_membership)).
Proof.
  intros Hm. unfold after_merge. cbn [users].
  rewrite lookup_insert_eq. eexists. split; [reflexivity|].
  unfold merge_doc. destruct (users fs !! userId) as [old|]; simpl.
  - by rewrite Hm.
  - rewrite Hm. reflexivity.
Qed.

(** C9. For a verified captured payment with both identifiers, when the
    merge write succeeds and the ledger append throws, both copies answer
    500 while the store keeps the merged user document: its membership
    is [active] with the newly computed expiry, and the ledger is as
    before.  The 500 answer therefore does not mean an unchanged store. *)
Theorem webhook_500_keeps_membership_write env flt now req fs payment userId planId :
  signed env req ->
  captured_for (wr_body req) payment userId planId ->
  set_throws flt = false ->
  add_throws flt = true ->
  (exists fs' doc m,
      webhook env flt now req fs
      = (Some (res_with 500 (json_error "Database update failed")), fs')
      /\ users fs' !! userId = Some doc
      /\ u_membership doc = Some m
      /\ m_status m = Some "active"
      /\ m_expiryDate m = Some (Backend.expiryDate now planId)
      /\ payments fs' = payments fs)
  /\ (exists fs' doc m,
      guarded_webhook env flt now req fs
      = (Some (res_with 500 (json_error "Database update failed")), fs')
      /\ users fs' !! userId = Some doc
      /\ u_membership doc = Some m
      /\ m_status m = Some "active"
      /\ m_expiresAt m = Some (BackendGuarded.expiresAt now planId)
      /\ payments fs' = payments fs).
Proof.
  intros Hsig Hcap Hset Hadd. split.
  - rewrite (webhook_captured env flt now req fs payment userId planId Hsig Hcap).
    rewrite Hset, Hadd.
    destruct (after_merge_membership fs userId (Backend.user_update now planId) _ eq_refl)
      as (doc & Hdoc & Hm).
    eexists _, doc, _. split; [reflexivity|]. split; [exact Hdoc|].
    split; [exact Hm|].
    destruct (users fs !! userId ≫= u_membership); by repeat split.
  - rewrite (guarded_webhook_captured env flt now req fs payment userId planId Hsig Hcap).
    rewrite Hset, Hadd.
    destruct (after_merge_membership fs userId (BackendGuarded.user_update now planId) _ eq_refl)
      as (doc & Hdoc & Hm).
    eexists _, doc, _. split; [reflexivity|]. split; [exact Hdoc|].
    split; [exact Hm|].
    destruct (users fs !! userId ≫= u_membership); by repeat split.
Qed.

(** In the copy with the calendar-year expiry, a verified captured
    payment with both identifiers and a store that accepts both writes
    gives: answer 200, membership [active] of type [planId] expiring at
    [expiresAt now planId], and exactly one more ledger row, whose amount
    is the captured amount divided by 100. *)
Lemma guarded_webhook_activates env now req fs payment userId planId :
  signed env req ->
  captured_for (wr_body req) payment userId planId ->
  exists fs' doc m,
    guarded_webhook env no_faults now req fs = (Some (res_ok (json_status "ok")), fs')
    /\ users fs' !! userId = Some doc
    /\ u_membership doc = Some m
    /\ m_status m = Some "active"
    /\ m_type m = Some planId
    /\ m_expiresAt m = Some (BackendGuarded.expiresAt now planId)
    /\ payments fs' = (payments fs ++ [payment_row userId planId payment])%list
    /\ p_amount (payment_row userId planId payment)
       = amount_in_rupees (pay_amount payment).
Proof.
  intros Hsig Hcap.
  rewrite (guarded_webhook_captured env no_faults now req fs payment userId planId Hsig Hcap).
  cbn [no_faults set_throws add_throws].
  destruct (after_merge_membership fs userId (BackendGuarded.user_update now planId) _ eq_refl)
    as (doc & Hdoc & Hm).
  eexists _, doc, _. split; [reflexivity|]. split; [exact Hdoc|].
  split; [exact Hm|].
  destruct (users fs !! userId ≫= u_membership); by repeat split.
Qed.

End WebhookProperties.

(** ** Calendar arithmetic of the expiry *)

Lemma year_of_era_bounds doe :
  0 <= doe < 146097 ->
  let yoe := (doe - doe / 1460 + doe / 36524 - doe / 146096) / 365 in
  let doy := doe - (365 * yoe + yoe / 4 - yoe / 100) in
  0 <= yoe < 400 /\ 0 <= doy < 367.
Proof.
  intros H yoe doy. subst yoe doy.
  Z.div_mod_to_equations. lia.
Qed.

(** The calendar date of a day number has a month in 0..11 and converts
    back to the same day number. *)
Lemma civil_from_days_inverse z :
  0 <= (JsDate.civil_from_days z).1.2 < 12
  /\ JsDate.days_from_civil (JsDate.civil_from_days z).1.1
       (JsDate.civil_from_days z).1.2 (JsDate.civil_from_days z).2 = z.
Proof.
  unfold JsDate.civil_from_days.
  set (z' := z + 719468).
  set (era := z' / 146097).
  set (doe := z' - era * 146097).
  assert (Hdoe : 0 <= doe < 146097).
  { subst doe era. Z.div_mod_to_equations. lia. }
  pose proof (year_of_era_bounds doe Hdoe) as Hb. cbv zeta in Hb.
  set (yoe := (doe - doe / 1460 + doe / 36524 - doe / 146096) / 365) in *.
  set (doy := doe - (365 * yoe + yoe / 4 - yoe / 100)) in *.
  destruct Hb as [Hyoe Hdoy].
  set (mp := (5 * doy + 2) / 153).
  assert (Hmp : 0 <= mp < 12).
  { subst mp. Z.div_mod_to_equations. lia. }
  assert (Hera : (yoe + era * 400) / 400 = era).
  { Z.div_mod_to_equations. lia. }
  cbn [fst snd]. unfold JsDate.days_from_civil.
  destruct (Z.ltb_spec mp 10) as [Hlt|Hge].
  - destruct (Z.ltb_spec (mp + 2) 2) as [?|_]; [lia|].
    split; [lia|].
    rewrite Hera.
    replace (mp + 2 - 2) with mp by lia.
    replace (yoe + era * 400 - era * 400) with yoe by lia.
    subst doy doe z'. lia.
  - destruct (Z.ltb_spec (mp - 10) 2) as [_|?]; [|lia].
    split; [lia|].
    replace (yoe + era * 400 + 1 - 1) with (yoe + era * 400) by lia.
    rewrite Hera.
    replace (mp - 10 + 10) with mp by lia.
    replace (yoe + era * 400 - era * 400) with yoe by lia.
    subst doy doe z'. lia.
Qed.

Lemma days_from_civil_date y m d :
  JsDate.days_from_civil y m d = JsDate.days_from_civil y m 1 + d - 1.
Proof. unfold JsDate.days_from_civil. lia. Qed.

(** [d.setDate(d.getDate() - 1)] moves a date back by exactly one day. *)
Lemma setDate_previous_day t :
  JsDate.setDate t (JsDate.getDate t - 1) = t - JsDate.msPerDay.
Proof.
  unfold JsDate.setDate, JsDate.getDate, JsDate.MakeDay, JsDate.MakeDate,
    JsDate.YearFromTime, JsDate.MonthFromTime, JsDate.DateFromTime.
  destruct (civil_from_days_inverse (JsDate.Day t)) as [Hm Hinv].
  rewrite (Z.div_small _ 12) by exact Hm.
  rewrite (Z.mod_small _ 12) by exact Hm.
  rewrite Z.add_0_r.
  rewrite days_from_civil_date in Hinv.
  unfold JsDate.TimeWithinDay, JsDate.Day, JsDate.msPerDay in *.
  pose proof (Z.div_mod t 86400000 ltac:(lia)). lia.
Qed.

(** The expiry of the guarded copy is the time one day before now, moved
    forward by the plan's number of calendar years. *)
Lemma expiresAt_yesterday_plus_years now planId :
  BackendGuarded.expiresAt now planId
  = JsDate.setFullYear (now - JsDate.msPerDay)
      (JsDate.getFullYear (now - JsDate.msPerDay)
       + BackendGuarded.durationYears planId).
Proof. unfold BackendGuarded.expiresAt. by rewrite setDate_previous_day. Qed.

Lemma durationYears_catalogue :
  BackendGuarded.durationYears "one-year" = 1
  /\ BackendGuarded.durationYears "two-year" = 2
  /\ BackendGuarded.durationYears "three-year" = 3.
Proof. repeat split. Qed.

(** 2 November 2026, 10:30 UTC: the one-, two- and three-year plans
    expire on 1 November 2027, 2028 and 2029 at 10:30. *)
Example expiresAt_november_2026 :
  BackendGuarded.expiresAt 1793615400000 "one-year" = 1825065000000
  /\ BackendGuarded.expiresAt 1793615400000 "two-year" = 1856687400000
  /\ BackendGuarded.expiresAt 1793615400000 "three-year" = 1888223400000.
Proof. vm_compute. repeat split. Qed.

(** 1 March 2024, 12:00 UTC: yesterday is 29 February, which does not exist
    a year later, so the one-year expiry is 1 March 2025, 12:00. *)
Example expiresAt_after_leap_day :
  BackendGuarded.expiresAt 1709294400000 "one-year" = 1740830400000.
Proof. vm_compute. reflexivity. Qed.

(** The same instant in backend/index.js: 365 days after now, that is
    2 November 2027, one day later than in the guarded copy. *)
Example expiryDate_november_2026 :
  Backend.expiryDate 1793615400000 "one-year" = 1825065000000 + 86400000.
Proof. vm_compute. reflexivity. Qed.

(** ** What backend/index.js writes on activation *)

Section IndexActivation.

Variable hmac_sha256_hex : string -> string -> string.
Variable JSON_stringify : WebhookBody -> string.

(** C4. The webhook of backend/index.js, on a correctly signed
    [payment.captured] request for user [u1] and plan [one-year] with
    35800 paise captured, on a store that accepts both writes: it answers
    200, sets the membership status to [active] and appends one ledger row
    of amount 358, but it stores the plan under [planId] and the expiry
    under [expiryDate], as now plus 365 days; the [type] and [expiresAt]
    fields of the membership stay unset.  The guarded copy of the handler
    sets [type] to the plan and [expiresAt] to one day before now plus one
    calendar year on the same request. *)
Theorem index_webhook_leaves_type_and_expiresAt secret now :
  hmac_sha256_hex secret (JSON_stringify captured_u1_one_year) <> "" ->
  let env := {| RAZORPAY_KEY_ID := None; RAZORPAY_KEY_SECRET := None;
                WEBHOOK_SECRET := Some secret |} in
  let req := {| x_razorpay_signature :=
                  Some (hmac_sha256_hex secret (JSON_stringify captured_u1_one_year));
                wr_body := captured_u1_one_year |} in
  (exists fs' doc m row,
      Backend.webhook hmac_sha256_hex JSON_stringify env no_faults now req store_with_u1
      = (Some (res_ok (json_status "ok")), fs')
      /\ users fs' !! "u1" = Some doc
      /\ u_membership doc = Some m
      /\ m_status m = Some "active"
      /\ m_type m = None
      /\ m_expiresAt m = None
      /\ m_planId m = Some "one-year"
      /\ m_expiryDate m = Some (now + 365 * 86400000)
      /\ payments fs' = [row]
      /\ p_amount row = 358%Q)
  /\ (exists fs' doc m row,
      BackendGuarded.webhook hmac_sha256_hex JSON_stringify env no_faults now req store_with_u1
      = (Some (res_ok (json_status "ok")), fs')
      /\ users fs' !! "u1" = Some doc
      /\ u_membership doc = Some m
      /\ m_status m = Some "active"
      /\ m_type m = Some "one-year"
      /\ m_expiresAt m
         = Some (JsDate.setFullYear (now - JsDate.msPerDay)
                   (JsDate.getFullYear (now - JsDate.msPerDay) + 1))
      /\ payments fs' = [row]
      /\ p_amount row = 358%Q).
Proof.
  intros Hne env req.
  assert (Hsig : correctly_signed hmac_sha256_hex JSON_stringify env req).
  { exists secret, (hmac_sha256_hex secret (JSON_stringify captured_u1_one_year)).
    by repeat split. }
  assert (Hcap : captured_for (wr_body req)
                   {| pay_id := "pay_1"; pay_order_id := "order_1";
                      pay_amount := 35800; pay_currency := "INR";
                      pay_notes := {| n_userId := Some "u1";
                                      n_planId := Some "one-year" |} |}
                   "u1" "one-year").
  { by repeat split. }
  split.
  - rewrite (webhook_captured _ _ env no_faults now req store_with_u1 _ _ _ Hsig Hcap).
    cbn [no_faults set_throws add_throws].
    eexists _, _, _, _. split; [reflexivity|].
    cbn [after_add after_merge users payments store_with_u1].
    rewrite lookup_insert_eq, lookup_singleton_eq.
    split; [reflexivity|]. cbn.
    split; [reflexivity|]. repeat split.
  - rewrite (guarded_webhook_captured _ _ env no_faults now req store_with_u1 _ _ _ Hsig Hcap).
    cbn [no_faults set_throws add_throws].
    eexists _, _, _, _. split; [reflexivity|].
    cbn [after_add after_merge users payments store_with_u1].
    rewrite lookup_insert_eq, lookup_singleton_eq.
    split; [reflexivity|]. cbn - [BackendGuarded.expiresAt].
    split; [reflexivity|]. repeat split.
    by rewrite expiresAt_yesterday_plus_years.
Qed.

End IndexActivation.

(** Three attempts within five minutes fill the window; the fourth is
    refused, and one made exactly 300000 ms after the first is allowed
    again. *)
Example limiter_fourth_attempt :
  let run := PaymentService.allowed
               [attempt_at 0; attempt_at 1000; attempt_at 2000; attempt_at 3000;
                attempt_at 300000] ∅ in
  at_now <$> run = [0; 1000; 2000; 300000].
Proof. vm_compute. reflexivity. Qed.

(** A key of [Object.prototype] passes the plan test of [/create-order]
    although it is no plan; a key found nowhere does not. *)
Example plans_get_inherited :
  plans_get "constructor" = Inherited (Some "Object")
  /\ plans_get "four-year" = Absent.
Proof. vm_compute. split; reflexivity. Qed.

(** ** The theorems at concrete inputs *)

Lemma create_order_amount_from_catalog_witness :
  b_planId sample_order_body = Some "one-year"
  /\ (exists plan, MEMBERSHIP_PLANS !! "one-year" = Some plan /\ price plan = 358)
  /\ (exists options,
        (Backend.create_order sample_gateway sample_env 7 sample_order_body).2 = [options]
        /\ oo_amount options = Num 35800)
  /\ (exists options,
        (BackendGuarded.create_order sample_gateway sample_env no_faults store_with_u1
           7 7 sample_order_body).2 = [options]
        /\ oo_amount options = Num 35800)
  /\ Backend.create_order sample_gateway sample_env 7 (with_amount (Some 99) sample_order_body)
     = Backend.create_order sample_gateway sample_env 7 sample_order_body.
Proof.
  pose proof (create_order_amount_from_catalog sample_gateway sample_env no_faults
                store_with_u1 7 7 sample_order_body "one-year"
                {| price := 358; name := "1-Year Executive Membership";
                   duration := "1 Year" |} eq_refl eq_refl)
    as (H1 & _ & H3 & _ & _ & H6).
  destruct (H3 "u1" eq_refl ltac:(discriminate) eq_refl eq_refl eq_refl)
    as [(options & Hcall & Hamount & _) _].
  split; [reflexivity|]. split; [eexists; split; reflexivity|].
  split; [exact H1|]. split; [by exists options|]. exact (proj1 (H6 (Some 99))).
Defined.


Lemma webhook_rejects_unsigned_witness :
  signature_mismatch sample_hmac sample_stringify sample_env forged_request
  /\ Backend.webhook sample_hmac sample_stringify sample_env no_faults 7
       forged_request store_with_u1
     = (Some (res_with 400 (json_error "Invalid signature")), store_with_u1)
  /\ (exists msg,
        BackendGuarded.webhook sample_hmac sample_stringify sample_env no_faults 7
          forged_request store_with_u1
        = (Some (res_with 400 (json_error msg)), store_with_u1)).
Proof.
  assert (Hmis : signature_mismatch sample_hmac sample_stringify sample_env forged_request).
  { exists "webhook-secret". split; [reflexivity|]. discriminate. }
  pose proof (webhook_rejects_unsigned sample_hmac sample_stringify sample_env no_faults 7
                forged_request store_with_u1 (or_intror Hmis)) as [_ Hg].
  split; [exact Hmis|]. split; [reflexivity|]. exact Hg.
Defined.

Lemma sample_signed body :
  correctly_signed sample_hmac sample_stringify sample_env (signed_request body).
Proof.
  exists "webhook-secret", (sample_hmac "webhook-secret" (sample_stringify body)).
  repeat split. discriminate.
Defined.

Lemma webhook_inapplicable_is_noop_witness :
  correctly_signed sample_hmac sample_stringify sample_env (signed_request refund_event)
  /\ inapplicable refund_event
  /\ inapplicable captured_without_notes
  /\ Backend.webhook sample_hmac sample_stringify sample_env no_faults 7
       (signed_request refund_event) store_with_u1
     = (Some (res_ok (json_status "ok")), store_with_u1)
  /\ BackendGuarded.webhook sample_hmac sample_stringify sample_env no_faults 7
       (signed_request captured_without_notes) store_with_u1
     = (Some (res_ok (json_status "ok")), store_with_u1).
Proof.
  assert (H1 : inapplicable refund_event) by (left; discriminate).
  assert (H2 : inapplicable captured_without_notes).
  { right. eexists. split; [reflexivity|]. by left. }
  split; [apply sample_signed|]. split; [exact H1|]. split; [exact H2|]. split.
  - exact (proj1 (webhook_inapplicable_is_noop sample_hmac sample_stringify sample_env
                    no_faults 7 (signed_request refund_event) store_with_u1
                    (sample_signed _) H1)).
  - exact (proj2 (webhook_inapplicable_is_noop sample_hmac sample_stringify sample_env
                    no_faults 7 (signed_request captured_without_notes) store_with_u1
                    (sample_signed _) H2)).
Defined.

Lemma sample_captured :
  captured_for captured_u1_one_year
    {| pay_id := "pay_1"; pay_order_id := "order_1"; pay_amount := 35800;
       pay_currency := "INR";
       pay_notes := {| n_userId := Some "u1"; n_planId := Some "one-year" |} |}
    "u1" "one-year".
Proof. by repeat split. Defined.

Lemma webhook_500_keeps_membership_write_witness :
  set_throws ledger_fault = false
  /\ add_throws ledger_fault = true
  /\ (exists fs' doc m,
        Backend.webhook sample_hmac sample_stringify sample_env ledger_fault 7
          (signed_request captured_u1_one_year) store_with_u1
        = (Some (res_with 500 (json_error "Database update failed")), fs')
        /\ users fs' !! "u1" = Some doc
        /\ u_membership doc = Some m
        /\ m_status m = Some "active"
        /\ fs' <> store_with_u1)
  /\ (exists fs' doc m,
        BackendGuarded.webhook sample_hmac sample_stringify sample_env ledger_fault 7
          (signed_request captured_u1_one_year) store_with_u1
        = (Some (res_with 500 (json_error "Database update failed")), fs')
        /\ users fs' !! "u1" = Some doc
        /\ u_membership doc = Some m
        /\ m_status m = Some "active"
        /\ fs' <> store_with_u1).
Proof.
  pose proof (webhook_500_keeps_membership_write sample_hmac sample_stringify sample_env
                ledger_fault 7 (signed_request captured_u1_one_year) store_with_u1
                _ "u1" "one-year" (sample_signed _) sample_captured eq_refl eq_refl)
    as [(fs1 & d1 & m1 & E1 & L1 & M1 & S1 & _) (fs2 & d2 & m2 & E2 & L2 & M2 & S2 & _)].
  split; [reflexivity|]. split; [reflexivity|]. split.
  - exists fs1, d1, m1. repeat split; auto.
    intros ->.
    assert (L : users store_with_u1 !! "u1" = Some signed_up_user)
      by apply lookup_singleton_eq.
    rewrite L in L1. injection L1 as <-.
    simpl in M1. injection M1 as <-. discriminate S1.
  - exists fs2, d2, m2. repeat split; auto.
    intros ->.
    assert (L : users store_with_u1 !! "u1" = Some signed_up_user)
      by apply lookup_singleton_eq.
    rewrite L in L2. injection L2 as <-.
    simpl in M2. injection M2 as <-. discriminate S2.
Defined.

Lemma duplicate_purchase_guard_witness :
  users store_with_active_u1 !! "u1" = Some active_member
  /\ 1000 < 2000
  /\ BackendGuarded.create_order sample_gateway sample_env no_faults
       store_with_active_u1 1000 1000 sample_order_body
     = (res_with 400 (json_error "User already has an active subscription"), [])
  /\ (Backend.create_order sample_gateway sample_env 1000 sample_order_body).2
     = [order_options 1000 sample_order_body "one-year"
          {| price := 358; name := "1-Year Executive Membership"; duration := "1 Year" |}].
Proof.
  assert (Hdoc : users store_with_active_u1 !! "u1" = Some active_member)
    by apply lookup_singleton_eq.
  pose proof (duplicate_purchase_guard sample_gateway sample_env no_faults
                store_with_active_u1 1000 1000 sample_order_body "u1" active_member
                _ 2000 eq_refl ltac:(discriminate) eq_refl Hdoc eq_refl eq_refl eq_refl
                ltac:(lia)) as [_ H].
  destruct (H "one-year" _ eq_refl eq_refl) as (Hg & Hu & _).
  split; [exact Hdoc|]. split; [lia|]. split; [exact Hg|exact Hu].
Defined.

Lemma rate_limit_three_per_window_witness :
  clock_monotone [attempt_at 0; attempt_at 1000; attempt_at 2000]
  /\ (forall w,
        (List.length
           (filter (in_window "u1" w)
              (PaymentService.allowed
                 [attempt_at 0; attempt_at 1000; attempt_at 2000] ∅)) <= 3)%nat)
  /\ (PaymentService.createOrder sample_plans sample_validate "https://api.example" sample_fetch
        (attempt_at 3000)
        (PaymentService.session sample_plans sample_validate "https://api.example" sample_fetch
           [attempt_at 0; attempt_at 1000; attempt_at 2000] ∅).2).1
     = (Throw "Too many payment attempts. Please try again later.", []).
Proof.
  assert (Hmono : clock_monotone [attempt_at 0; attempt_at 1000; attempt_at 2000]).
  { simpl. repeat split; repeat constructor; simpl; lia. }
  pose proof (rate_limit_three_per_window sample_plans sample_validate
                "https://api.example" sample_fetch
                [attempt_at 0; attempt_at 1000; attempt_at 2000] Hmono)
    as (Hadm & _ & H4 & _ & _).
  split; [exact Hmono|]. split; [exact (Hadm "u1")|].
  rewrite (H4 (attempt_at 3000)); [reflexivity| |].
  - repeat constructor; simpl; lia.
  - vm_compute. lia.
Defined.

Lemma index_webhook_leaves_type_and_expiresAt_witness :
  sample_hmac "webhook-secret" (sample_stringify captured_u1_one_year) <> ""
  /\ exists fs' doc m,
       Backend.webhook sample_hmac sample_stringify sample_env no_faults 1793615400000
         (signed_request captured_u1_one_year) store_with_u1
       = (Some (res_ok (json_status "ok")), fs')
       /\ users fs' !! "u1" = Some doc
       /\ u_membership doc = Some m
       /\ m_type m = None
       /\ m_expiresAt m = None
       /\ m_expiryDate m = Some 1825151400000.
Proof.
  assert (Hne : sample_hmac "webhook-secret" (sample_stringify captured_u1_one_year) <> "")
    by discriminate.
  pose proof (index_webhook_leaves_type_and_expiresAt sample_hmac sample_stringify
                "webhook-secret" 1793615400000 Hne)
    as [(fs' & doc & m & row & E & L & M & _ & T & X & _ & D & _) _].
  split; [exact Hne|]. exists fs', doc, m.
  split; [exact E|]. repeat split; auto.
Defined.

(** * Further properties of the backend *)

Section WebhookFrame.

Variable hmac_sha256_hex : string -> string -> string.
Variable JSON_stringify : WebhookBody -> string.

Local Abbreviation webhook := (Backend.webhook hmac_sha256_hex JSON_stringify).
Local Abbreviation guarded_webhook :=
  (BackendGuarded.webhook hmac_sha256_hex JSON_stringify).

Lemma within_frame_refl req fs : within_frame req fs fs.
Proof.
  split; [exists []; split; [by rewrite app_nil_r|simpl; lia]|].
  intros id H. contradiction.
Qed.

Lemma within_frame_merge req fs payment userId data :
  wb_payment (wr_body req) = Some payment ->
  n_userId (pay_notes payment) = Some userId ->
  within_frame req fs (after_merge fs userId data).
Proof.
  intros Hp Hu. split.
  - exists []. split; [by rewrite app_nil_r|simpl; lia].
  - intros id Hne. cbn [after_merge users] in Hne.
    destruct (decide (userId = id)) as [<-|Hid]; [by exists payment|].
    rewrite lookup_insert_ne in Hne by done. contradiction.
Qed.

Lemma within_frame_merge_add req fs payment userId data row :
  wb_payment (wr_body req) = Some payment ->
  n_userId (pay_notes payment) = Some userId ->
  within_frame req fs (after_add (after_merge fs userId data) row).
Proof.
  intros Hp Hu. split.
  - exists [row]. split; [reflexivity|simpl; lia].
  - intros id Hne. cbn [after_add after_merge users] in Hne.
    destruct (decide (userId = id)) as [<-|Hid]; [by exists payment|].
    rewrite lookup_insert_ne in Hne by done. contradiction.
Qed.

(** X1. Whatever the request, the secret, the clock and the behaviour of the
    store, a webhook call keeps every ledger row, appends at most one, and
    leaves every user document other than that of the user named in the
    payment notes as it was. *)
Theorem webhook_keeps_ledger_and_other_users env flt now req fs :
  within_frame req fs (webhook env flt now req fs).2
  /\ within_frame req fs (guarded_webhook env flt now req fs).2.
Proof.
  unfold Backend.webhook, BackendGuarded.webhook, doc_set_merge, payments_add.
  split.
  all: destruct (negb (truthy (x_razorpay_signature req))); [apply within_frame_refl|].
  all: destruct (WEBHOOK_SECRET env); [|apply within_frame_refl].
  all: destruct (strict_eq (x_razorpay_signature req) _); [|apply within_frame_refl].
  all: destruct (strict_eq (wb_event (wr_body req)) _); [|apply within_frame_refl].
  all: destruct (wb_payment (wr_body req)) as [payment|] eqn:Hp; [|apply within_frame_refl].
  all: destruct (n_userId (pay_notes payment)) as [userId|] eqn:Hu; [|apply within_frame_refl].
  all: destruct (n_planId (pay_notes payment)) as [planId|]; [|apply within_frame_refl].
  all: destruct (truthy (Some userId) && truthy (Some planId)); [|apply within_frame_refl].
  all: destruct (set_throws flt); [apply within_frame_refl|].
  all: destruct (add_throws flt); cbn [snd users payments].
  all: first [ by apply (within_frame_merge req fs payment userId)
             | by apply (within_frame_merge_add req fs payment userId) ].
Qed.

(** Writing the webhook's data over a document that already holds an
    earlier write of the same handler gives what writing it over the
    original document gives. *)
Lemma merge_doc_again_index now1 now2 planId1 planId2 old :
  merge_doc (Backend.user_update now2 planId2)
    (Some (merge_doc (Backend.user_update now1 planId1) old))
  = merge_doc (Backend.user_update now2 planId2) old.
Proof.
  destruct old as [[[m|] role upd prof]|]; reflexivity.
Qed.

Lemma merge_doc_again_guarded now1 now2 planId1 planId2 old :
  merge_doc (BackendGuarded.user_update now2 planId2)
    (Some (merge_doc (BackendGuarded.user_update now1 planId1) old))
  = merge_doc (BackendGuarded.user_update now2 planId2) old.
Proof.
  destruct old as [[[m|] role upd prof]|]; reflexivity.
Qed.

(** X2. Delivering the same verified captured payment twice, to a store that
    accepts all writes: the second delivery answers 200 again, the user
    documents end as after a single delivery at the second time, and the
    ledger holds the payment's row twice. *)
Theorem webhook_redelivery_duplicates_row env now1 now2 req fs payment userId planId :
  correctly_signed hmac_sha256_hex JSON_stringify env req ->
  captured_for (wr_body req) payment userId planId ->
  let row := payment_row userId planId payment in
  webhook env no_faults now2 req (webhook env no_faults now1 req fs).2
  = (Some (res_ok (json_status "ok")),
     {| users := users (webhook env no_faults now2 req fs).2;
        payments := (payments fs ++ [row; row])%list |})
  /\ guarded_webhook env no_faults now2 req (guarded_webhook env no_faults now1 req fs).2
     = (Some (res_ok (json_status "ok")),
        {| users := users (guarded_webhook env no_faults now2 req fs).2;
           payments := (payments fs ++ [row; row])%list |}).
Proof.
  intros Hsig Hcap row. split.
  - rewrite !(webhook_captured _ _ env no_faults _ req _ payment userId planId Hsig Hcap).
    cbn [no_faults set_throws add_throws snd].
    unfold after_add, after_merge. cbn [users payments]. f_equal. f_equal.
    + by rewrite lookup_insert_eq, insert_insert_eq, merge_doc_again_index.
    + by rewrite <- app_assoc.
  - rewrite !(guarded_webhook_captured _ _ env no_faults _ req _ payment userId planId Hsig Hcap).
    cbn [no_faults set_throws add_throws snd].
    unfold after_add, after_merge. cbn [users payments]. f_equal. f_equal.
    + by rewrite lookup_insert_eq, insert_insert_eq, merge_doc_again_guarded.
    + by rewrite <- app_assoc.
Qed.

End WebhookFrame.

(** ** The expiry written on activation *)

(** Moving a calendar date forward by one, two or three years adds that
    many times 365 days, plus one when a 29 February lies in between. *)
Lemma days_from_civil_years y m n :
  0 <= m < 12 -> 1 <= n <= 3 ->
  365 * n <= JsDate.days_from_civil (y + n) m 1 - JsDate.days_from_civil y m 1
          <= 365 * n + 1.
Proof.
  intros Hm Hn. unfold JsDate.days_from_civil.
  destruct (Z.ltb_spec m 2).
  - assert (n = 1 \/ n = 2 \/ n = 3) as [-> | [-> | ->]] by lia;
      Z.div_mod_to_equations; lia.
  - assert (n = 1 \/ n = 2 \/ n = 3) as [-> | [-> | ->]] by lia;
      Z.div_mod_to_equations; lia.
Qed.

Lemma setFullYear_adds_years t n :
  1 <= n <= 3 ->
  t + 365 * n * JsDate.msPerDay
  <= JsDate.setFullYear t (JsDate.getFullYear t + n)
  <= t + (365 * n + 1) * JsDate.msPerDay.
Proof.
  intros Hn.
  unfold JsDate.setFullYear, JsDate.getFullYear, JsDate.MakeDay, JsDate.MakeDate,
    JsDate.YearFromTime, JsDate.MonthFromTime, JsDate.DateFromTime.
  destruct (civil_from_days_inverse (JsDate.Day t)) as [Hm Hinv].
  rewrite (Z.div_small _ 12) by exact Hm.
  rewrite (Z.mod_small _ 12) by exact Hm.
  rewrite Z.add_0_r.
  rewrite days_from_civil_date in Hinv.
  pose proof (days_from_civil_years (JsDate.civil_from_days (JsDate.Day t)).1.1
                (JsDate.civil_from_days (JsDate.Day t)).1.2 n Hm Hn) as Hy.
  unfold JsDate.TimeWithinDay, JsDate.Day, JsDate.msPerDay in *.
  pose proof (Z.div_mod t 86400000 ltac:(lia)). nia.
Qed.

Lemma durationYears_range planId :
  1 <= BackendGuarded.durationYears planId <= 3
  /\ Backend.durationDays planId = 365 * BackendGuarded.durationYears planId.
Proof.
  unfold BackendGuarded.durationYears, Backend.durationDays.
  destruct (String.eqb planId "one-year"); [lia|].
  destruct (String.eqb planId "two-year"); lia.
Qed.

Lemma expiresAt_lower_bound now planId :
  now + 364 * 86400000 <= BackendGuarded.expiresAt now planId.
Proof.
  rewrite expiresAt_yesterday_plus_years.
  destruct (durationYears_range planId) as [Hn _].
  pose proof (setFullYear_adds_years (now - JsDate.msPerDay)
                (BackendGuarded.durationYears planId) Hn) as H.
  unfold JsDate.msPerDay in *. lia.
Qed.

(** X3. The two copies of the webhook compute expiries at most one day apart:
    the calendar-year expiry of the guarded copy is the day-count expiry of
    backend/index.js or the day before it; it lies at least 364 days after
    the activation, so in particular in the future. *)
Theorem expiry_of_both_copies now planId :
  Backend.expiryDate now planId - 86400000
  <= BackendGuarded.expiresAt now planId
  <= Backend.expiryDate now planId
  /\ now + 364 * 86400000 <= BackendGuarded.expiresAt now planId
  /\ now < BackendGuarded.expiresAt now planId.
Proof.
  rewrite expiresAt_yesterday_plus_years.
  destruct (durationYears_range planId) as [Hn Hd].
  pose proof (setFullYear_adds_years (now - JsDate.msPerDay)
                (BackendGuarded.durationYears planId) Hn) as H.
  unfold Backend.expiryDate. rewrite Hd.
  unfold JsDate.msPerDay in *. lia.
Qed.

Section ActivationProperties.

Variable hmac_sha256_hex : string -> string -> string.
Variable JSON_stringify : WebhookBody -> string.
Variable razorpay_orders_create : OrderOptions -> outcome Order.

Local Abbreviation webhook := (Backend.webhook hmac_sha256_hex JSON_stringify).
Local Abbreviation guarded_webhook :=
  (BackendGuarded.webhook hmac_sha256_hex JSON_stringify).
Local Abbreviation guarded_create_order :=
  (BackendGuarded.create_order razorpay_orders_create).

(** X4. Activation followed by a new order, in the guarded copy, on a
    server whose local time is UTC (the [Date] arithmetic of the expiry is
    local; under another zone with daylight saving the bound below can be
    off by the zone's shift): once the webhook has activated a user (an
    id with no [/]) at time [now], every [/create-order] request for that
    user and a plan of the catalogue made less than 364 days later is
    answered 400 by the guard, without a gateway call, provided the user's
    document can be read. *)
Theorem activated_user_cannot_reorder
    env env' flt now today now' req fs payment userId planId body planId' plan :
  correctly_signed hmac_sha256_hex JSON_stringify env req ->
  captured_for (wr_body req) payment userId planId ->
  has_char "/" userId = false ->
  b_userId body = Some userId ->
  b_planId body = Some planId' ->
  MEMBERSHIP_PLANS !! planId' = Some plan ->
  get_throws flt = false ->
  today < now + 364 * 86400000 ->
  guarded_create_order env' flt (guarded_webhook env no_faults now req fs).2
    today now' body
  = (res_with 400 (json_error "User already has an active subscription"), []).
Proof.
  intros Hsig Hcap _ Hu Hp Hplan Hget Htoday.
  destruct (guarded_webhook_activates hmac_sha256_hex JSON_stringify env now req fs
              payment userId planId Hsig Hcap)
    as (fs' & doc & m & -> & Hdoc & Hm & Hst & _ & Hexp & _).
  cbn [snd]. unfold BackendGuarded.create_order. rewrite Hp.
  rewrite (supported_plan_truthy _ _ Hplan), (supported_plan_get _ _ Hplan).
  cbn [negb]. rewrite Hu.
  destruct Hcap as (_ & _ & _ & Hune & _).
  unfold users_doc. destruct (String.eqb_spec userId ""); [done|].
  unfold doc_get. rewrite Hget, Hdoc.
  unfold BackendGuarded.already_subscribed. rewrite Hm, Hst, Hexp.
  cbn [strict_eq]. rewrite String.eqb_refl.
  pose proof (expiresAt_lower_bound now planId) as Hlow.
  destruct (Z.ltb_spec today (BackendGuarded.expiresAt now planId)); [reflexivity|lia].
Qed.

(** X5. The webhook never looks a plan up in the catalogue: a verified
    captured payment whose notes name a plan that is not in it still
    activates the membership, under that plan id, with the duration of the
    three-year plan. *)
Theorem webhook_activates_unlisted_plan env now req fs payment userId planId :
  correctly_signed hmac_sha256_hex JSON_stringify env req ->
  captured_for (wr_body req) payment userId planId ->
  MEMBERSHIP_PLANS !! planId = None ->
  (exists fs' doc m,
      webhook env no_faults now req fs = (Some (res_ok (json_status "ok")), fs')
      /\ users fs' !! userId = Some doc
      /\ u_membership doc = Some m
      /\ m_status m = Some "active"
      /\ m_planId m = Some planId
      /\ m_expiryDate m = Some (now + 1095 * 86400000))
  /\ (exists fs' doc m,
      guarded_webhook env no_faults now req fs = (Some (res_ok (json_status "ok")), fs')
      /\ users fs' !! userId = Some doc
      /\ u_membership doc = Some m
      /\ m_status m = Some "active"
      /\ m_type m = Some planId
      /\ m_expiresAt m = Some (BackendGuarded.expiresAt now "three-year")).
Proof.
  intros Hsig Hcap Hnone.
  assert (H1 : String.eqb planId "one-year" = false).
  { destruct (String.eqb_spec planId "one-year") as [->|]; [|done].
    vm_compute in Hnone. discriminate. }
  assert (H2 : String.eqb planId "two-year" = false).
  { destruct (String.eqb_spec planId "two-year") as [->|]; [|done].
    vm_compute in Hnone. discriminate. }
  split.
  - rewrite (webhook_captured _ _ env no_faults now req fs payment userId planId Hsig Hcap).
    cbn [no_faults set_throws add_throws].
    destruct (after_merge_membership fs userId (Backend.user_update now planId) _ eq_refl)
      as (doc & Hdoc & Hm).
    eexists _, doc, _. split; [reflexivity|]. split; [exact Hdoc|].
    split; [exact Hm|].
    assert (Backend.expiryDate now planId = now + 1095 * 86400000) as <-.
    { unfold Backend.expiryDate, Backend.durationDays. rewrite H1, H2. lia. }
    destruct (users fs !! userId ≫= u_membership); by repeat split.
  - rewrite (guarded_webhook_captured _ _ env no_faults now req fs payment userId planId Hsig Hcap).
    cbn [no_faults set_throws add_throws].
    destruct (after_merge_membership fs userId (BackendGuarded.user_update now planId) _ eq_refl)
      as (doc & Hdoc & Hm).
    eexists _, doc, _. split; [reflexivity|]. split; [exact Hdoc|].
    split; [exact Hm|].
    assert (BackendGuarded.expiresAt now planId = BackendGuarded.expiresAt now "three-year") as <-.
    { unfold BackendGuarded.expiresAt, BackendGuarded.durationYears.
      by rewrite H1, H2. }
    destruct (users fs !! userId ≫= u_membership); by repeat split.
Qed.

End ActivationProperties.

(** ** Further properties of order creation *)

Lemma plans_get_cases planId :
  (exists plan, MEMBERSHIP_PLANS !! planId = Some plan /\ plans_get planId = OwnPlan plan)
  \/ (MEMBERSHIP_PLANS !! planId = None
      /\ exists fname, plans_get planId = Inherited fname
                       /\ In planId (Object_prototype.*1))
  \/ (MEMBERSHIP_PLANS !! planId = None /\ plans_get planId = Absent).
Proof.
  unfold plans_get.
  destruct (MEMBERSHIP_PLANS !! planId) as [plan|]; [left; by exists plan|].
  right.
  destruct (find _ Object_prototype) as [kv|] eqn:Hf; [left|by right].
  split; [done|]. exists kv.2. split; [done|].
  apply find_some in Hf as [Hin Heq]. apply String.eqb_eq in Heq. subst planId.
  apply (in_map fst) in Hin. exact Hin.
Qed.

Section OrderSafety.

Variable razorpay_orders_create : OrderOptions -> outcome Order.

Local Abbreviation create_order := (Backend.create_order razorpay_orders_create).
Local Abbreviation guarded_create_order :=
  (BackendGuarded.create_order razorpay_orders_create).

(** The only option records either copy can build. *)
Lemma create_order_calls env now body options :
  In options (create_order env now body).2 ->
  exists planId,
    b_planId body = Some planId
    /\ options = {| oo_amount := plan_amount (plans_get planId);
                    oo_currency := "INR";
                    oo_receipt := "order_" +:+ pretty now;
                    oo_notes := {| on_userId := b_userId body;
                                   on_planId := planId;
                                   on_planName := plan_name (plans_get planId) |} |}.
Proof.
  unfold Backend.create_order.
  destruct (b_planId body) as [planId|]; [|intros []].
  destruct (negb (truthy (Some planId))); [intros []|].
  destruct (plans_get planId) eqn:Hg; [| |intros []].
  all: destruct (razorpay_orders_create _); cbn [snd];
    intros [<-|[]]; exists planId; by rewrite Hg.
Qed.

Lemma guarded_create_order_calls env flt fs today now body options :
  In options (guarded_create_order env flt fs today now body).2 ->
  In options (create_order env now body).2
  /\ exists id, users_doc (b_userId body) = Return id
                /\ get_throws flt = false
                /\ BackendGuarded.already_subscribed today (users fs !! id) = false.
Proof.
  unfold BackendGuarded.create_order, Backend.create_order.
  destruct (b_planId body) as [planId|]; [|intros []].
  destruct (negb (truthy (Some planId))); [intros []|].
  destruct (plans_get planId) eqn:Hg; [| |intros []].
  all: destruct (users_doc (b_userId body)) as [id|]; [|intros []].
  all: unfold doc_get; destruct (get_throws flt); [intros []|].
  all: destruct (BackendGuarded.already_subscribed today (users fs !! id)) eqn:Hs;
    [intros []|].
  all: destruct (razorpay_orders_create _); cbn [snd];
    intros [<-|[]]; (split; [by left|by exists id]).
Qed.

(** X6. Whatever the request body holds, a gateway call made by either copy
    of [/create-order] asks for INR and for 35800, 66400 or 91900 paise;
    the one exception is a plan id that is a member of [Object.prototype],
    for which the amount sent is [NaN].  The guarded copy moreover only
    calls the gateway after reading the user's document and finding no
    current active membership. *)
Theorem create_order_only_catalogue_amounts env flt fs today now body options :
  In options (create_order env now body).2
  \/ In options (guarded_create_order env flt fs today now body).2 ->
  oo_currency options = "INR"
  /\ match oo_amount options with
     | Num z => z = 35800 \/ z = 66400 \/ z = 91900
     | NaN => exists planId, b_planId body = Some planId
                             /\ MEMBERSHIP_PLANS !! planId = None
                             /\ In planId (Object_prototype.*1)
     end
  /\ (In options (guarded_create_order env flt fs today now body).2 ->
      exists id, users_doc (b_userId body) = Return id
                 /\ get_throws flt = false
                 /\ BackendGuarded.already_subscribed today (users fs !! id) = false).
Proof.
  intros H.
  assert (Hin : In options (create_order env now body).2).
  { destruct H as [H|H]; [exact H|].
    by apply guarded_create_order_calls in H as [H _]. }
  split; [|split].
  - apply create_order_calls in Hin as (planId & _ & ->). reflexivity.
  - pose proof Hin as Hin'.
    apply create_order_calls in Hin' as (planId & Hb & ->). cbn [oo_amount].
    destruct (plans_get_cases planId)
      as [(plan & Hp & ->)|[(Hn & fname & -> & Hkey)|(Hn & Habs)]].
    + cbn [plan_amount].
      apply MEMBERSHIP_PLANS_lookup in Hp as [[_ ->]|[[_ ->]|[_ ->]]]; auto.
    + cbn [plan_amount]. by exists planId.
    + exfalso. revert Hin. unfold Backend.create_order. rewrite Hb, Habs.
      by destruct (negb (truthy (Some planId))).
  - intros Hg. by apply guarded_create_order_calls in Hg as [_ Hg].
Qed.

(** X7. A plan id that names a member of [Object.prototype] passes the plan
    test of backend/index.js: the gateway is called once, with amount
    [NaN], instead of the request being answered 400. *)
Theorem create_order_inherited_key env now body planId :
  b_planId body = Some planId ->
  In planId (Object_prototype.*1) ->
  exists options,
    (create_order env now body).2 = [options]
    /\ oo_amount options = NaN
    /\ on_planId (oo_notes options) = planId
    /\ res_status (create_order env now body).1 <> 400.
Proof.
  intros Hb Hin.
  assert (Hget : truthy (Some planId) = true
                 /\ exists fname, plans_get planId = Inherited fname).
  { simpl in Hin.
    repeat (destruct Hin as [<-|Hin]; [split; [reflexivity|eexists; reflexivity]|]).
    destruct Hin. }
  destruct Hget as [Ht [fname Hg]].
  unfold Backend.create_order. rewrite Hb, Ht, Hg. cbn [negb plan_amount].
  destruct (razorpay_orders_create _); eexists; repeat split; discriminate.
Qed.

(** X8. The guarded copy and backend/index.js: when the plan test fails both
    answer the same 400; otherwise the guarded copy answers 500 without a
    gateway call if the user id is missing or empty or the document cannot
    be read, and it behaves exactly as backend/index.js when the document
    is read and shows no current active membership. *)
Theorem guarded_create_order_refines env flt fs today now body :
  ((create_order env now body).2 = [] ->
     guarded_create_order env flt fs today now body = create_order env now body)
  /\ ((create_order env now body).2 <> [] ->
      (forall e, users_doc (b_userId body) = Throw e ->
         guarded_create_order env flt fs today now body
         = (res_with 500 (json_error "Failed to create order"), []))
      /\ (get_throws flt = true ->
         guarded_create_order env flt fs today now body
         = (res_with 500 (json_error "Failed to create order"), []))
      /\ (forall id, users_doc (b_userId body) = Return id ->
         get_throws flt = false ->
         BackendGuarded.already_subscribed today (users fs !! id) = false ->
         guarded_create_order env flt fs today now body = create_order env now body)).
Proof.
  unfold BackendGuarded.create_order, Backend.create_order.
  destruct (b_planId body) as [planId|]; [|by split].
  destruct (negb (truthy (Some planId))); [by split|].
  destruct (plans_get planId) eqn:Hg; [| |by split].
  all: split; [destruct (razorpay_orders_create _); discriminate|].
  all: intros _; split; [intros e ->; reflexivity|].
  all: split.
  all: try (intros Hget; unfold doc_get; rewrite Hget;
            by destruct (users_doc (b_userId body))).
  all: intros id -> Hget Hs; unfold doc_get; by rewrite Hget, Hs.
Qed.

End OrderSafety.

(** * Further properties of the rate limiters *)

Section GenericLimiter.

Variable maxAttempts windowMs : Z.

Local Abbreviation limiter := (RateLimiter.limiter maxAttempts windowMs).
Local Abbreviation granted := (RateLimiter.granted maxAttempts windowMs).

Lemma granted_inv_later h m t0 t1 :
  t0 <= t1 -> granted_inv windowMs h m t0 -> granted_inv windowMs h m t1.
Proof.
  intros Hle [Hh Hm]. split.
  - eapply Forall_impl; [exact Hh|]. simpl. intros; lia.
  - intros k t Ht. apply Hm. lia.
Qed.

Lemma limiter_step h m t0 now key :
  granted_inv windowMs h m t0 -> granted_bound maxAttempts windowMs h -> t0 <= now ->
  limiter now key m = (false, m)
  \/ exists m', limiter now key m = (true, m')
                /\ granted_inv windowMs (h ++ [(now, key)]) m' now
                /\ granted_bound maxAttempts windowMs (h ++ [(now, key)]).
Proof.
  intros [Hh Hm] Hb Hle. unfold RateLimiter.limiter.
  rewrite (Hm key now Hle), length_fmap.
  destruct (Z.leb_spec maxAttempts
              (Z.of_nat (List.length (recent_calls windowMs key now h))))
    as [Hfull|Hroom]; [by left|right].
  eexists. split; [reflexivity|]. split; [split|].
  - apply Forall_app. split.
    + eapply Forall_impl; [exact Hh|]. simpl. intros; lia.
    + repeat constructor. simpl. lia.
  - intros k t Ht. unfold recent_calls. rewrite filter_app, fmap_app.
    destruct (decide (key = k)) as [<-|Hne].
    + rewrite lookup_insert_eq. simpl. rewrite filter_app. f_equal.
      * rewrite filter_fmap_list. f_equal. unfold recent_calls.
        rewrite list_filter_filter. apply filter_ext_list.
        intros x. split; [intros (? & ? & ?); auto|].
        intros [? ?]. repeat split; auto; lia.
      * rewrite !filter_cons, !filter_nil. cbn [fst snd].
        repeat case_decide; try reflexivity; exfalso; tauto.
    + rewrite lookup_insert_ne by done.
      rewrite Hm by lia.
      rewrite filter_cons, filter_nil. cbn [fst snd].
      case_decide as Hd; [by destruct Hd|]. by rewrite app_nil_r.
  - intros k w. rewrite filter_app, length_app, filter_cons, filter_nil.
    destruct (decide (in_key_window windowMs k w (now, key))) as [[Hk Hw]|_];
      simpl in *; [|specialize (Hb k w); lia].
    assert (List.length (filter (in_key_window windowMs k w) h)
            <= List.length (recent_calls windowMs key now h))%nat; [|lia].
    unfold recent_calls. apply filter_length_mono.
    intros x [Hx Hwx]. split; [congruence|lia].
Qed.

Lemma granted_window_bound calls : forall h m t0,
  granted_inv windowMs h m t0 -> granted_bound maxAttempts windowMs h ->
  Forall (fun c => t0 <= c.1) calls ->
  calls_monotone calls ->
  granted_bound maxAttempts windowMs (h ++ granted calls m).
Proof.
  induction calls as [|[now key] rest IH]; intros h m t0 Hinv Hb Hge Hmono.
  - simpl. by rewrite app_nil_r.
  - apply Forall_cons in Hge as [Hnow Hge]. simpl in Hnow.
    destruct Hmono as [Hrest Hmono]. cbn [RateLimiter.granted].
    destruct (limiter_step h m t0 now key Hinv Hb Hnow)
      as [->|(m' & -> & Hinv' & Hb')].
    + apply (IH h m now); auto. by apply (granted_inv_later h m t0).
    + rewrite (cons_middle (now, key)), app_assoc. by apply (IH _ m' now).
Qed.

(** X9. [createRateLimiter]: over any run of the returned function whose clock
    does not run backwards, the calls of one key answered [true] within
    any window of [windowMs] milliseconds number at most [maxAttempts]
    (none when [maxAttempts] is not positive); in particular at most 5 per
    60000 ms with the default arguments. *)
Theorem createRateLimiter_bound calls :
  calls_monotone calls ->
  forall key w,
    Z.of_nat (List.length (filter (in_key_window windowMs key w) (granted calls ∅)))
    <= Z.max 0 maxAttempts.
Proof.
  intros Hmono.
  pose (t0 := match calls with [] => 0 | c :: _ => c.1 end).
  apply (granted_window_bound calls [] ∅ t0); auto.
  - split; [constructor|]. intros k t _. by rewrite lookup_empty.
  - intros k w. simpl. lia.
  - destruct calls as [|c rest]; [constructor|].
    destruct Hmono as [Hrest _]. constructor; [subst t0; simpl; lia|].
    exact Hrest.
Qed.

End GenericLimiter.

Section ServiceLimiterMore.

Variable membershipPlans membershipPlans' : list ClientPlan.
Variable validatePaymentData validatePaymentData' : FormData -> string -> outcome bool.
Variable apiBaseUrl apiBaseUrl' : string.
Variable fetch fetch' : CreateOrderRequest -> outcome (bool * ClientOrder).

Local Abbreviation session :=
  (PaymentService.session membershipPlans validatePaymentData apiBaseUrl fetch).
Local Abbreviation session' :=
  (PaymentService.session membershipPlans' validatePaymentData' apiBaseUrl' fetch').

Lemma allowed_Forall (P : Attempt -> Prop) attempts : forall m,
  Forall P attempts -> Forall P (PaymentService.allowed attempts m).
Proof.
  induction attempts as [|a rest IH]; intros m H; [constructor|].
  apply Forall_cons in H as [Ha H]. cbn [PaymentService.allowed].
  destruct (PaymentService.checkRateLimit _ _ _) as [[v|e] m']; auto.
Qed.

(** X10. The limiter lets a user in again: in a session whose clock does not
    run backwards, an attempt made at least 300000 ms after every earlier
    attempt of the same user passes [checkRateLimit], however many attempts
    came before. *)
Theorem checkRateLimit_recovers attempts a :
  clock_monotone attempts ->
  Forall (fun b => at_now b <= at_now a) attempts ->
  Forall (fun b => at_userId b = at_userId a -> at_now b + 300000 <= at_now a) attempts ->
  exists m',
    PaymentService.checkRateLimit (at_now a) (at_userId a) (session attempts ∅).2
    = (Return true, m').
Proof.
  intros Hmono Hlast Hold.
  pose (t0 := match attempts with [] => at_now a | b :: _ => at_now b end).
  assert (Hinv : limiter_inv ([] ++ PaymentService.allowed attempts ∅)
                   (session attempts ∅).2 (at_now a)).
  { apply (session_limiter_inv _ _ _ _ attempts [] ∅ t0); auto.
    - apply limiter_inv_empty.
    - destruct attempts as [|b rest]; [constructor|].
      destruct Hmono as [Hrest _]. constructor; [subst t0; simpl; lia|].
      exact Hrest.
    - subst t0. destruct attempts as [|b rest]; [lia|].
      by apply Forall_cons in Hlast as [? _]. }
  simpl in Hinv. eexists.
  apply (checkRateLimit_allows (PaymentService.allowed attempts ∅) _ (at_now a));
    [exact Hinv|lia|].
  unfold recent_of. rewrite filter_none; [simpl; lia|].
  apply (allowed_Forall _ attempts ∅).
  eapply Forall_impl; [exact Hold|]. simpl. intros b Hb [Hu Ht]. specialize (Hb Hu). lia.
Qed.

(** X11. The limiter's map after a session does not depend on the plan table,
    the form validation, the backend URL or the network: an attempt is
    counted as soon as it passes the limiter, also when the plan is
    unknown, the form is rejected or the request fails. *)
Theorem session_counts_every_attempt attempts : forall m,
  (session attempts m).2 = (session' attempts m).2.
Proof.
  induction attempts as [|a rest IH]; intros m; [reflexivity|].
  cbn [PaymentService.session].
  destruct (PaymentService.checkRateLimit (at_now a) (at_userId a) m)
    as [[v|e] m'] eqn:Hc.
  - pose proof (createOrder_allowed membershipPlans validatePaymentData apiBaseUrl
                  fetch a m v m' Hc) as H1.
    pose proof (createOrder_allowed membershipPlans' validatePaymentData' apiBaseUrl'
                  fetch' a m v m' Hc) as H2.
    destruct (PaymentService.createOrder membershipPlans validatePaymentData
                apiBaseUrl fetch a m) as [r1 m1].
    destruct (PaymentService.createOrder membershipPlans' validatePaymentData'
                apiBaseUrl' fetch' a m) as [r2 m2].
    simpl in H1, H2. subst m1 m2. specialize (IH m').
    destruct (session rest m'), (session' rest m'). exact IH.
  - rewrite (createOrder_refused membershipPlans validatePaymentData apiBaseUrl
               fetch a m e m' Hc).
    rewrite (createOrder_refused membershipPlans' validatePaymentData' apiBaseUrl'
               fetch' a m e m' Hc).
    specialize (IH m'). destruct (session rest m'), (session' rest m'). exact IH.
Qed.

End ServiceLimiterMore.

(** Filtering by user commutes with the run of the limiter, from any two
    maps that agree on that user. *)
Lemma allowed_by_user_agree u attempts : forall m m',
  m !! u = m' !! u ->
  filter (by_user u) (PaymentService.allowed attempts m)
  = PaymentService.allowed (filter (by_user u) attempts) m'.
Proof.
  induction attempts as [|a rest IH]; intros m m' Hagree; [reflexivity|].
  cbn [PaymentService.allowed]. rewrite filter_cons.
  destruct (decide (by_user u a)) as [Hu|Hu]; unfold by_user in Hu.
  - cbn [PaymentService.allowed]. unfold PaymentService.checkRateLimit.
    rewrite Hu, Hagree.
    destruct (3 <=? _)%nat.
    + by apply IH.
    + rewrite filter_cons. destruct (decide (by_user u a)) as [_|N]; [|by destruct N].
      f_equal. apply IH. by rewrite !lookup_insert_eq.
  - unfold PaymentService.checkRateLimit.
    destruct (3 <=? _)%nat.
    + by apply IH.
    + rewrite filter_cons. destruct (decide (by_user u a)) as [Y|_]; [by destruct Hu|].
      apply IH. by rewrite lookup_insert_ne.
Qed.

(** X12. The limiter treats users separately: the attempts of a user that are
    allowed in a session are those allowed in the session made of that
    user's attempts alone. *)
Theorem checkRateLimit_per_user u attempts :
  filter (by_user u) (PaymentService.allowed attempts ∅)
  = PaymentService.allowed (filter (by_user u) attempts) ∅.
Proof. by apply allowed_by_user_agree. Qed.

(** X13. The hook's cooldown: with the last stamp [l] not in the future, a
    refused call shows a wait of 0 to 5 minutes and leaves both refs as
    they were, and a call made more than 300000 ms after [l] is handed
    over with the counter back at 1. *)
Theorem hook_cooldown r l now_check now_stamp :
  SecureRecruit.lastPaymentTime r = Some l ->
  0 < l <= now_check ->
  (forall toast r',
      SecureRecruit.handlePayment now_check now_stamp r = (SecureRecruit.Refused toast, r') ->
      r' = r
      /\ now_check - l <= 300000
      /\ exists minutes,
           0 <= minutes <= 5
           /\ toast = Some ("Too many payment attempts. Please wait "
                            +:+ pretty minutes +:+ " minutes."))
  /\ (300000 < now_check - l ->
      SecureRecruit.handlePayment now_check now_stamp r
      = (SecureRecruit.HandedOver,
         {| SecureRecruit.paymentAttempts := 1;
            SecureRecruit.lastPaymentTime := Some now_stamp |})).
Proof.
  intros Hl Hrange.
  unfold SecureRecruit.handlePayment, SecureRecruit.checkPaymentRateLimit.
  rewrite Hl.
  replace (negb (l =? 0)) with true
    by (symmetry; apply negb_true_iff, Z.eqb_neq; lia).
  cbn [andb].
  destruct (Z.ltb_spec 300000 (now_check - l)) as [Hgap|Hgap].
  - cbn [SecureRecruit.paymentAttempts SecureRecruit.lastPaymentTime].
    split; [|reflexivity]. intros toast r'. discriminate.
  - split; [|lia]. intros toast r'.
    destruct (3 <=? SecureRecruit.paymentAttempts r); [|discriminate].
    rewrite Hl. intros [= <- <-]. split; [reflexivity|]. split; [lia|].
    eexists. split; [|reflexivity].
    unfold SecureRecruit.ceil_minutes. cbn [default].
    Z.div_mod_to_equations. lia.
Qed.

(** * Further properties of validation and sanitisation *)

(** X14. The form is sanitised twice on its way to the backend, by the hook
    and again by [createOrder]; the second pass changes nothing. *)
Theorem sanitizeFormData_idempotent f :
  sanitizeFormData (sanitizeFormData f) = sanitizeFormData f.
Proof.
  assert (H : forall o : option string,
    SecurityUtils.sanitizeString <$> (SecurityUtils.sanitizeString <$> o)
    = SecurityUtils.sanitizeString <$> o).
  { intros [s|]; [|reflexivity]. simpl. f_equal.
    apply sanitizeString_fixed, sanitizeString_free. }
  destruct f. unfold sanitizeFormData. simpl. by rewrite !H.
Qed.

(** Exactly which characters a replacement pass leaves in a string. *)
Lemma has_char_replace_all_exact d c rep s :
  has_char d (replace_all c rep s)
  = (if Ascii.eqb c d then false else has_char d s)
    || (has_char c s && has_char d rep).
Proof.
  induction s as [|a s IH]; simpl.
  - by destruct (Ascii.eqb c d).
  - destruct (Ascii.eqb_spec a c) as [->|Hac].
    + rewrite has_char_app, IH. simpl.
      destruct (Ascii.eqb c d), (has_char d s), (has_char c s), (has_char d rep);
        reflexivity.
    + simpl. rewrite IH.
      destruct (Ascii.eqb_spec c d) as [->|Hcd].
      * destruct (Ascii.eqb_spec a d) as [->|_]; [done|]. reflexivity.
      * destruct (Ascii.eqb a d), (has_char d s), (has_char c s), (has_char d rep);
          reflexivity.
Qed.

(** A string that holds an escaped character comes out with an
    ampersand. *)
Lemma sanitizeString_ampersand s :
  free_of escaped7 s \/ has_char "&" (SecurityUtils.sanitizeString s) = true.
Proof.
  unfold SecurityUtils.sanitizeString, free_of, escaped7.
  rewrite !has_char_replace_all_exact. simpl.
  destruct (has_char "<" s) eqn:E1; [right; by rewrite ?orb_true_r|].
  destruct (has_char ">" s) eqn:E2; [right; by rewrite ?orb_true_r|].
  destruct (has_char double_quote s) eqn:E3; [right; by rewrite ?orb_true_r|].
  destruct (has_char "'" s) eqn:E4; [right; by rewrite ?orb_true_r|].
  destruct (has_char "/" s) eqn:E5; [right; by rewrite ?orb_true_r|].
  destruct (has_char "`" s) eqn:E6; [right; by rewrite ?orb_true_r|].
  destruct (has_char "=" s) eqn:E7; [right; by rewrite ?orb_true_r|].
  left. by repeat constructor.
Qed.

Lemma all_chars_has_char p c s :
  all_chars p s = true -> p c = false -> has_char c s = false.
Proof.
  intros Hall Hc. induction s as [|a s IH]; [reflexivity|].
  cbn [all_chars] in Hall. apply andb_true_iff in Hall as [Ha Hs].
  cbn [has_char]. rewrite (IH Hs), orb_false_r.
  destruct (Ascii.eqb_spec a c) as [->|]; [congruence|reflexivity].
Qed.

Lemma valid_phone_digits s : isValidPhone s = true -> all_chars is_digit s = true.
Proof. intros H. by apply isValidPhone_spec in H as (_ & H & _). Qed.

(** X15. Sanitising commutes with the phone rule: a valid phone number is left
    as it is, and an invalid one stays invalid, so the rule gives the same
    verdict on the sanitised form data as on what the user typed. *)
Theorem isValidPhone_after_sanitizing s :
  isValidPhone (SecurityUtils.sanitizeString s) = isValidPhone s
  /\ (isValidPhone s = true -> SecurityUtils.sanitizeString s = s).
Proof.
  assert (Hfix : isValidPhone s = true -> SecurityUtils.sanitizeString s = s).
  { intros Hv. apply valid_phone_digits in Hv.
    apply sanitizeString_fixed. unfold free_of, escaped7.
    repeat constructor; by apply (all_chars_has_char is_digit). }
  split; [|exact Hfix].
  destruct (isValidPhone s) eqn:Hv; [by rewrite Hfix|].
  destruct (sanitizeString_ampersand s) as [Hfree|Hamp].
  - by rewrite (sanitizeString_fixed s Hfree).
  - destruct (isValidPhone (SecurityUtils.sanitizeString s)) eqn:Hv'; [|reflexivity].
    apply valid_phone_digits in Hv'.
    rewrite (all_chars_has_char is_digit "&" _ Hv' eq_refl) in Hamp. discriminate.
Qed.

(** ** The three phone rules *)

Lemma strip_non_digits_spec s :
  all_chars is_digit (strip_non_digits s) = true
  /\ String.length (strip_non_digits s) = count_digits s.
Proof.
  induction s as [|c s [IH1 IH2]]; [by split|].
  cbn [strip_non_digits count_digits].
  destruct (is_digit c) eqn:Hc; [|by split].
  cbn [all_chars String.length]. by rewrite Hc, IH1, IH2.
Qed.

Lemma strip_non_digits_digits s :
  all_chars is_digit s = true -> strip_non_digits s = s.
Proof.
  induction s as [|c s IH]; [reflexivity|].
  cbn [all_chars strip_non_digits]. intros H.
  apply andb_true_iff in H as [Hc Hs]. by rewrite Hc, IH.
Qed.

Lemma admin_isValidPhone_spec s :
  AdminEvents.isValidPhone s = true <-> count_digits s = 10%nat.
Proof.
  unfold AdminEvents.isValidPhone.
  destruct (strip_non_digits_spec s) as [Hd Hl].
  rewrite regex_test_cons. split.
  - intros (pre & rest & Heq & Hlen & _ & Hr).
    apply regex_test_nil in Hr. subst rest. rewrite append_empty_r in Heq.
    by rewrite <- Hl, Heq.
  - intros Hc. exists (strip_non_digits s), "".
    rewrite append_empty_r. split; [reflexivity|]. split; [by rewrite Hl|].
    split; [exact Hd|reflexivity].
Qed.

(** X16. The phone rules of the code base are nested: what [isValidPhone] of
    securityUtils.js accepts, [validatePhone] accepts, and what
    [validatePhone] accepts, the admin and profile rule accepts; this last
    rule accepts exactly the strings that contain ten digits, whatever
    stands between them.  Both inclusions are strict. *)
Theorem phone_rules_nested :
  (forall s, isValidPhone s = true -> Validation.validatePhone s = true)
  /\ (forall s, Validation.validatePhone s = true -> AdminEvents.isValidPhone s = true)
  /\ (forall s, AdminEvents.isValidPhone s = true <-> count_digits s = 10%nat)
  /\ (Validation.validatePhone "1234567890" = true /\ isValidPhone "1234567890" = false)
  /\ (AdminEvents.isValidPhone "98765-43210" = true
      /\ Validation.validatePhone "98765-43210" = false).
Proof.
  split; [|split; [|split; [|split]]].
  - intros s H. apply isValidPhone_spec in H as (Hl & Hd & _).
    by apply validatePhone_spec.
  - intros s H. apply validatePhone_spec in H as (Hl & Hd).
    apply admin_isValidPhone_spec.
    destruct (strip_non_digits_spec s) as [_ <-].
    by rewrite (strip_non_digits_digits s Hd).
  - exact admin_isValidPhone_spec.
  - split; reflexivity.
  - split; reflexivity.
Qed.

(** ** [sanitizePhone] *)

Lemma string_take_length n s : (String.length (string_take n s) <= n)%nat.
Proof.
  revert s. induction n as [|n IH]; intros [|c s]; simpl; try lia.
  specialize (IH s). lia.
Qed.

Lemma string_take_all_chars p n s :
  all_chars p s = true -> all_chars p (string_take n s) = true.
Proof.
  revert s. induction n as [|n IH]; intros [|c s]; simpl; try reflexivity.
  intros H. apply andb_true_iff in H as [Hc Hs]. by rewrite Hc, IH.
Qed.

Lemma string_drop_all_chars p n s :
  all_chars p s = true -> all_chars p (string_drop n s) = true.
Proof.
  revert s. induction n as [|n IH]; intros [|c s]; simpl; try done.
  intros H. apply andb_true_iff in H as [Hc Hs]. by apply IH.
Qed.

Lemma string_take_whole s : string_take (String.length s) s = s.
Proof. induction s as [|c s IH]; simpl; [reflexivity|]. by rewrite IH. Qed.

(** X17. [sanitizePhone] always returns at most ten characters, all of them
    decimal digits. *)
Theorem sanitizePhone_digits phone :
  (String.length (sanitizePhone phone) <= 10)%nat
  /\ all_chars is_digit (sanitizePhone phone) = true.
Proof.
  unfold sanitizePhone. destruct phone as [p|]; [|split; [simpl; lia|reflexivity]].
  destruct (String.eqb p ""); [split; [simpl; lia|reflexivity]|].
  split; [apply string_take_length|].
  apply string_take_all_chars.
  destruct (strip_non_digits_spec p) as [Hd _].
  destruct (starts_with "0" (strip_non_digits p)).
  - pose proof (string_drop_all_chars is_digit 1 _ Hd) as Hd1.
    destruct (_ && _); [by apply string_drop_all_chars|done].
  - destruct (_ && _); [by apply string_drop_all_chars|done].
Qed.

Lemma strip_non_digits_digit c s :
  is_digit c = true -> strip_non_digits (String c s) = String c (strip_non_digits s).
Proof. intros H. cbn [strip_non_digits]. by rewrite H. Qed.

Lemma strip_non_digits_other c s :
  is_digit c = false -> strip_non_digits (String c s) = strip_non_digits s.
Proof. intros H. cbn [strip_non_digits]. by rewrite H. Qed.

Lemma sanitizePhone_plain p x :
  String.eqb p "" = false -> strip_non_digits p = x ->
  starts_with "0" x = false -> String.length x = 10%nat ->
  sanitizePhone (Some p) = x.
Proof.
  intros Hp Hs H0 Hl. unfold sanitizePhone. rewrite Hp, Hs, H0, Hl.
  change (10 <? 10)%nat with false. rewrite andb_false_r.
  rewrite <- Hl. apply string_take_whole.
Qed.

Lemma sanitizePhone_country_code p x :
  String.eqb p "" = false ->
  strip_non_digits p = String "9" (String "1" x) ->
  String.length x = 10%nat ->
  sanitizePhone (Some p) = x.
Proof.
  intros Hp Hs Hl. unfold sanitizePhone. rewrite Hp, Hs.
  replace (starts_with "0" (String "9" (String "1" x))) with false by reflexivity.
  replace (starts_with "91" (String "9" (String "1" x))) with true by reflexivity.
  cbn [String.length]. rewrite Hl.
  change (10 <? 12)%nat with true. cbn [andb string_drop].
  rewrite <- Hl. apply string_take_whole.
Qed.

Lemma sanitizePhone_leading_zero p x :
  String.eqb p "" = false ->
  strip_non_digits p = String "0" x ->
  String.length x = 10%nat ->
  sanitizePhone (Some p) = x.
Proof.
  intros Hp Hs Hl. unfold sanitizePhone. rewrite Hp, Hs.
  replace (starts_with "0" (String "0" x)) with true by reflexivity.
  cbn [string_drop]. rewrite Hl.
  change (10 <? 10)%nat with false. rewrite andb_false_r.
  rewrite <- Hl. apply string_take_whole.
Qed.

(** X18. A valid phone number comes out of [sanitizePhone] unchanged, and so
    do its forms with the country code [+91] or [91], or a leading [0],
    in front. *)
Theorem sanitizePhone_normalises s :
  isValidPhone s = true ->
  sanitizePhone (Some s) = s
  /\ sanitizePhone (Some ("+91" +:+ s)) = s
  /\ sanitizePhone (Some ("91" +:+ s)) = s
  /\ sanitizePhone (Some ("0" +:+ s)) = s
  /\ sanitizePhone (Some ("+91 " +:+ s)) = s.
Proof.
  intros Hv. apply isValidPhone_spec in Hv as (Hlen & Hd & c & rest & -> & Hc).
  assert (Hstrip : strip_non_digits (String c rest) = String c rest)
    by (by apply strip_non_digits_digits).
  assert (H0 : starts_with "0" (String c rest) = false).
  { destruct Hc as [-> | [-> | [-> | ->]]]; reflexivity. }
  change ("+91" +:+ String c rest) with (String "+" (String "9" (String "1" (String c rest)))).
  change ("91" +:+ String c rest) with (String "9" (String "1" (String c rest))).
  change ("0" +:+ String c rest) with (String "0" (String c rest)).
  change ("+91 " +:+ String c rest)
    with (String "+" (String "9" (String "1" (String " " (String c rest))))).
  split; [by apply sanitizePhone_plain|].
  split; [apply sanitizePhone_country_code; [reflexivity| |exact Hlen]|].
  { rewrite (strip_non_digits_other "+") by reflexivity.
    rewrite (strip_non_digits_digit "9"), (strip_non_digits_digit "1") by reflexivity.
    by rewrite Hstrip. }
  split; [apply sanitizePhone_country_code; [reflexivity| |exact Hlen]|].
  { rewrite (strip_non_digits_digit "9"), (strip_non_digits_digit "1") by reflexivity.
    by rewrite Hstrip. }
  split; [apply sanitizePhone_leading_zero; [reflexivity| |exact Hlen]|].
  { rewrite (strip_non_digits_digit "0") by reflexivity. by rewrite Hstrip. }
  apply sanitizePhone_country_code; [reflexivity| |exact Hlen].
  rewrite (strip_non_digits_other "+") by reflexivity.
  rewrite (strip_non_digits_digit "9"), (strip_non_digits_digit "1") by reflexivity.
  rewrite (strip_non_digits_other " ") by reflexivity.
  by rewrite Hstrip.
Qed.

(** ** USN validators *)

Lemma one_to_four_is_not_N c :
  is_1_to_4 c = true -> Ascii.eqb (to_upper "N") (to_upper c) = false.
Proof.
  destruct c as [[] [] [] [] [] [] [] []]; vm_compute; congruence.
Qed.

(** X19. The two USN rules of the repository accept no string in common: the
    payment form wants a USN that starts with [NNM] or [NU], the validation
    module one that starts with a digit from 1 to 4. *)
Theorem usn_rules_disjoint usn :
  validateUSN usn && isValidUSN usn = false.
Proof.
  destruct usn as [|c s]; [reflexivity|].
  destruct (validateUSN (String c s)) eqn:Hv; [|reflexivity].
  assert (H14 : is_1_to_4 c = true).
  { unfold validateUSN in Hv. cbn [classes_test class_repeat] in Hv.
    by destruct (is_1_to_4 c). }
  unfold isValidUSN. cbn [starts_with_ci andb orb].
  by rewrite (one_to_four_is_not_N c H14).
Qed.

(** ** Pagination *)

(** X20. For a current page among the pages, the buttons are consecutive page
    numbers, five of them or all the pages when there are fewer; all of
    them are pages, and the current page is one of them. *)
Theorem renderButtons_window currentPage pages :
  1 <= currentPage <= pages ->
  exists startPage,
    renderButtons currentPage pages = seqZ startPage (Z.min 5 pages)
    /\ 1 <= startPage
    /\ startPage + Z.min 5 pages - 1 <= pages
    /\ startPage <= currentPage < startPage + Z.min 5 pages.
Proof.
  intros H. unfold renderButtons.
  change (5 / 2) with 2.
  set (s0 := Z.max 1 (currentPage - 2)).
  set (e := Z.min pages (s0 + 5 - 1)).
  destruct (e - s0 <? 5 - 1) eqn:Hlt.
  - apply Z.ltb_lt in Hlt. exists (Z.max 1 (e - 5 + 1)).
    split; [f_equal; subst e s0; lia|]. subst e s0. lia.
  - apply Z.ltb_ge in Hlt. exists s0.
    split; [f_equal; subst e s0; lia|]. subst e s0. lia.
Qed.

Lemma pages_concat {A} (l : list A) k :
  (List.length l <= k * MEMBERS_PER_PAGE)%nat ->
  concat (map (paginatedMembers l) (seq 1 k)) = l.
Proof.
  revert l. induction k as [|k IH]; intros l Hl.
  - destruct l; [reflexivity|]. cbn in Hl. lia.
  - cbn [seq map concat].
    rewrite <- seq_shift, map_map.
    rewrite (map_ext_in _ (paginatedMembers (drop MEMBERS_PER_PAGE l))).
    + rewrite IH.
      * unfold paginatedMembers. cbn [Nat.sub Nat.mul drop].
        apply take_drop.
      * rewrite length_drop. unfold MEMBERS_PER_PAGE in *. lia.
    + intros p Hp%in_seq. unfold paginatedMembers. rewrite drop_drop.
      do 2 f_equal. unfold MEMBERS_PER_PAGE. lia.
Qed.

Lemma totalPages_covers {A} (l : list A) :
  (List.length l <= totalPages l * MEMBERS_PER_PAGE)%nat.
Proof.
  unfold totalPages, MEMBERS_PER_PAGE.
  pose proof (Nat.div_mod (List.length l + 20 - 1) 20 ltac:(lia)) as Hd.
  pose proof (Nat.mod_upper_bound (List.length l + 20 - 1) 20 ltac:(lia)).
  lia.
Qed.

(** X21. The pages of the members table, from the first to the last, show every
    member once and in order; no page holds more than twenty, and none of
    them is empty. *)
Theorem paginatedMembers_partition {A} (filteredMembers : list A) :
  concat (map (paginatedMembers filteredMembers) (seq 1 (totalPages filteredMembers)))
  = filteredMembers
  /\ forall currentPage,
       (1 <= currentPage <= totalPages filteredMembers)%nat ->
       (1 <= List.length (paginatedMembers filteredMembers currentPage) <= 20)%nat.
Proof.
  split; [apply pages_concat, totalPages_covers|].
  intros p Hp. unfold paginatedMembers.
  rewrite length_take, length_drop.
  revert Hp. unfold totalPages, MEMBERS_PER_PAGE.
  pose proof (Nat.div_mod (List.length filteredMembers + 20 - 1) 20 ltac:(lia)) as Hd.
  pose proof (Nat.mod_upper_bound (List.length filteredMembers + 20 - 1) 20 ltac:(lia)).
  intros Hp. nia.
Qed.

(** ** The further properties at concrete inputs *)

Lemma sample_captured_lifetime :
  captured_for captured_u1_lifetime
    {| pay_id := "pay_3"; pay_order_id := "order_3"; pay_amount := 100;
       pay_currency := "INR";
       pay_notes := {| n_userId := Some "u1"; n_planId := Some "lifetime" |} |}
    "u1" "lifetime".
Proof. by repeat split. Defined.

Lemma webhook_redelivery_duplicates_row_witness :
  correctly_signed sample_hmac sample_stringify sample_env
    (signed_request captured_u1_one_year)
  /\ List.length
       (payments
          (Backend.webhook sample_hmac sample_stringify sample_env no_faults 8
             (signed_request captured_u1_one_year)
             (Backend.webhook sample_hmac sample_stringify sample_env no_faults 7
                (signed_request captured_u1_one_year) store_with_u1).2).2)
     = 2%nat.
Proof.
  pose proof (webhook_redelivery_duplicates_row sample_hmac sample_stringify sample_env
                7 8 (signed_request captured_u1_one_year) store_with_u1 _ "u1" "one-year"
                (sample_signed _) sample_captured) as [H _].
  split; [apply sample_signed|]. rewrite H. reflexivity.
Defined.

Lemma activated_user_cannot_reorder_witness :
  2000 < 1000 + 364 * 86400000
  /\ BackendGuarded.create_order sample_gateway sample_env no_faults
       (BackendGuarded.webhook sample_hmac sample_stringify sample_env no_faults 1000
          (signed_request captured_u1_one_year) store_with_u1).2
       2000 2000 sample_order_body
     = (res_with 400 (json_error "User already has an active subscription"), []).
Proof.
  split; [lia|].
  apply (activated_user_cannot_reorder sample_hmac sample_stringify sample_gateway
           sample_env sample_env no_faults 1000 2000 2000
           (signed_request captured_u1_one_year) store_with_u1 _ "u1" "one-year"
           sample_order_body "one-year"
           {| price := 358; name := "1-Year Executive Membership"; duration := "1 Year" |}
           (sample_signed _) sample_captured eq_refl eq_refl eq_refl eq_refl eq_refl).
  lia.
Defined.

Lemma webhook_activates_unlisted_plan_witness :
  MEMBERSHIP_PLANS !! "lifetime" = None
  /\ exists fs' doc m,
       Backend.webhook sample_hmac sample_stringify sample_env no_faults 7
         (signed_request captured_u1_lifetime) store_with_u1
       = (Some (res_ok (json_status "ok")), fs')
       /\ users fs' !! "u1" = Some doc
       /\ u_membership doc = Some m
       /\ m_status m = Some "active"
       /\ m_planId m = Some "lifetime".
Proof.
  assert (Hnone : MEMBERSHIP_PLANS !! "lifetime" = None) by reflexivity.
  pose proof (webhook_activates_unlisted_plan sample_hmac sample_stringify sample_env 7
                (signed_request captured_u1_lifetime) store_with_u1 _ "u1" "lifetime"
                (sample_signed _) sample_captured_lifetime Hnone)
    as [(fs' & doc & m & E & L & M & S & P & _) _].
  split; [exact Hnone|]. exists fs', doc, m. repeat split; assumption.
Defined.

Lemma create_order_only_catalogue_amounts_witness :
  In (order_options 7 sample_order_body "one-year"
        {| price := 358; name := "1-Year Executive Membership"; duration := "1 Year" |})
     (Backend.create_order sample_gateway sample_env 7 sample_order_body).2
  /\ oo_currency
       (order_options 7 sample_order_body "one-year"
          {| price := 358; name := "1-Year Executive Membership"; duration := "1 Year" |})
     = "INR".
Proof.
  assert (Hin : In (order_options 7 sample_order_body "one-year"
                      {| price := 358; name := "1-Year Executive Membership";
                         duration := "1 Year" |})
                   (Backend.create_order sample_gateway sample_env 7 sample_order_body).2)
    by (left; reflexivity).
  split; [exact Hin|].
  exact (proj1 (create_order_only_catalogue_amounts sample_gateway sample_env no_faults
                  store_with_u1 7 7 sample_order_body _ (or_introl Hin))).
Defined.

Lemma create_order_inherited_key_witness :
  In "constructor" (Object_prototype.*1)
  /\ exists options,
       (Backend.create_order sample_gateway sample_env 7 constructor_order_body).2
       = [options]
       /\ oo_amount options = NaN.
Proof.
  assert (Hin : In "constructor" (Object_prototype.*1)) by (left; reflexivity).
  destruct (create_order_inherited_key sample_gateway sample_env 7 constructor_order_body
              "constructor" eq_refl Hin) as (options & E & A & _).
  split; [exact Hin|]. exists options. split; assumption.
Defined.

Lemma createRateLimiter_bound_witness :
  calls_monotone [(0, "k"); (10, "k"); (20, "k")]
  /\ Z.of_nat
       (List.length
          (filter (in_key_window 60000 "k" 0)
             (RateLimiter.granted 2 60000 [(0, "k"); (10, "k"); (20, "k")] ∅)))
     <= Z.max 0 2.
Proof.
  assert (Hmono : calls_monotone [(0, "k"); (10, "k"); (20, "k")]).
  { simpl. repeat split; repeat constructor; simpl; lia. }
  split; [exact Hmono|].
  exact (createRateLimiter_bound 2 60000 _ Hmono "k" 0).
Defined.

Lemma checkRateLimit_recovers_witness :
  clock_monotone [attempt_at 0; attempt_at 1000; attempt_at 2000]
  /\ exists m',
       PaymentService.checkRateLimit 400000 "u1"
         (PaymentService.session sample_plans sample_validate "https://api.example"
            sample_fetch [attempt_at 0; attempt_at 1000; attempt_at 2000] ∅).2
       = (Return true, m').
Proof.
  assert (Hmono : clock_monotone [attempt_at 0; attempt_at 1000; attempt_at 2000]).
  { simpl. repeat split; repeat constructor; simpl; lia. }
  split; [exact Hmono|].
  apply (checkRateLimit_recovers sample_plans sample_validate "https://api.example"
           sample_fetch [attempt_at 0; attempt_at 1000; attempt_at 2000]
           (attempt_at 400000) Hmono).
  - repeat constructor; simpl; lia.
  - repeat constructor; simpl; lia.
Defined.

Lemma hook_cooldown_witness :
  0 < 1000 <= 400000
  /\ SecureRecruit.handlePayment 400000 400001 three_counted
     = (SecureRecruit.HandedOver,
        {| SecureRecruit.paymentAttempts := 1;
           SecureRecruit.lastPaymentTime := Some 400001 |}).
Proof.
  assert (H : 0 < 1000 <= 400000) by lia.
  split; [exact H|].
  apply (proj2 (hook_cooldown three_counted 1000 400000 400001 eq_refl H)). lia.
Defined.

Lemma sanitizePhone_normalises_witness :
  isValidPhone "9876543210" = true
  /\ sanitizePhone (Some "+91 9876543210") = "9876543210"
  /\ sanitizePhone (Some "09876543210") = "9876543210".
Proof.
  destruct (sanitizePhone_normalises "9876543210" eq_refl) as (_ & _ & _ & H0 & H91).
  split; [reflexivity|]. split; [exact H91|exact H0].
Defined.

Lemma renderButtons_window_witness :
  1 <= 10 <= 10
  /\ exists startPage,
       renderButtons 10 10 = seqZ startPage (Z.min 5 10) /\ 1 <= startPage.
Proof.
  assert (H : 1 <= 10 <= 10) by lia.
  destruct (renderButtons_window 10 10 H) as (s & E & L & _).
  split; [exact H|]. exists s. split; assumption.
Defined.
